(** * Leading Edge Model D real-time clock (MM58167 register file)

    A shallow embedding of [src/device/leading_edge_rtc.c]: the 32-byte
    register file, the once-per-second tick engine [mm67_tick], the alarm
    comparison [mm67_chkalrm], the port decoder [mm67_read] / [mm67_write]
    and the lifecycle hooks [mm67_reset] / [mm67_start].

    C integers are modelled as [Z]; a store into a [uint8_t] cell goes
    through [to_u8].  The register array is a [list Z] indexed with stdpp's
    total lookup and in-place insert. *)

From Stdlib Require Import ZArith Lia Bool List.
From stdpp Require Import base numbers list.

Local Open Scope Z_scope.

(** ** C integer conventions *)

(** Conversion of an [int] to [uint8_t]. *)
Definition to_u8 (x : Z) : Z := x mod 256.

(** Truth value of a C integer used as a condition. *)
Definition c_true (x : Z) : bool := negb (x =? 0).

(** ** The NVR backend: the parts of [86box/nvr.h] the clock uses *)

(** Modelled from the spec: the macro [RTC_BCD] of [86box/nvr.h], which is
    not among the sources.  "encode(binary) -> byte: binary value 0-99
    packed into two BCD nibbles": the low decimal digit in the low nibble,
    the remaining quotient shifted into the high nibble.  The arithmetic is
    C's ([%] and [/] truncate towards zero). *)
Definition RTC_BCD (x : Z) : Z := Z.lor (Z.rem x 10) (Z.shiftl (Z.quot x 10) 4).

(** Modelled from the spec: the macro [RTC_DCB] of [86box/nvr.h], which is
    not among the sources.  "decode(byte) -> binary: each nibble treated as
    a decimal digit"; a nibble above 9 is not validated. *)
Definition RTC_DCB (x : Z) : Z :=
  Z.shiftr (Z.land x 0xf0) 4 * 10 + Z.land x 0x0f.

(** Modelled from the spec: the macro [RTC_BCDINC] of [86box/nvr.h], which
    is not among the sources.  "incrementBCD(byte, step) -> byte: adds step
    in decimal to a BCD-encoded value": decode, add, encode.  The result is
    an [int]; the tick engine stores it into a byte and applies its own
    rollover checks ([>= 0x60] for seconds, [>= RTC_BCD(100)] for the
    year). *)
Definition RTC_BCDINC (x y : Z) : Z := RTC_BCD (RTC_DCB x + y).

(** Modelled from the spec: the leap-year rule behind [nvr_get_days], which
    is not among the sources ("honoring leap years"). *)
Definition nvr_is_leap (year : Z) : bool :=
  if Z.rem year 400 =? 0 then true
  else if Z.rem year 100 =? 0 then false
  else Z.rem year 4 =? 0.

(** Modelled from the spec: [nvr_get_days] of the NVR backend, which is not
    among the sources.  "a days-in-month function taking (month 1-12,
    four-digit year) honoring leap years".  Outside 1-12 the spec says
    nothing; the model answers 0 there and no theorem below depends on
    it. *)
Definition nvr_get_days (month year : Z) : Z :=
  match month with
  | 1 | 3 | 5 | 7 | 8 | 10 | 12 => 31
  | 4 | 6 | 9 | 11 => 30
  | 2 => if nvr_is_leap year then 29 else 28
  | _ => 0
  end.

(** [struct tm], as far as the clock reads it. *)
Record tm := mk_tm {
  tm_sec : Z; tm_min : Z; tm_hour : Z;
  tm_mday : Z; tm_mon : Z; tm_year : Z; tm_wday : Z
}.

(** [nvr_t], as far as the clock uses it: the register bytes, the number of
    registers and the interrupt line (-1: none). *)
Record nvr_t := mk_nvr {
  regs : list Z;
  nvr_size : Z;
  irq : Z
}.

(** ** MM58167 register map *)

Definition MM67_REGS : Z := 32.

Definition MM67_MSEC : Z := 0.
Definition MM67_HUNTEN : Z := 1.
Definition MM67_SEC : Z := 2.
Definition MM67_MIN : Z := 3.
Definition MM67_HOUR : Z := 4.
Definition MM67_DOW : Z := 5.
Definition MM67_DOM : Z := 6.
Definition MM67_MON : Z := 7.
Definition MM67_AL_MSEC : Z := 8.
Definition MM67_AL_HUNTEN : Z := 9.
Definition MM67_AL_SEC : Z := 10.
Definition MM67_AL_MIN : Z := 11.
Definition MM67_AL_HOUR : Z := 12.
Definition MM67_AL_DOW : Z := 13.
Definition MM67_AL_DOM : Z := 14.
Definition MM67_AL_MON : Z := 15.
Definition MM67_AL_DONTCARE : Z := 0xc0.
Definition MM67_ISTAT : Z := 16.
Definition MM67_ICTRL : Z := 17.
Definition MM67INT_COMPARE : Z := 0x01.
Definition MM67INT_TENTH : Z := 0x02.
Definition MM67INT_SEC : Z := 0x04.
Definition MM67INT_MIN : Z := 0x08.
Definition MM67INT_HOUR : Z := 0x10.
Definition MM67INT_DAY : Z := 0x20.
Definition MM67INT_WEEK : Z := 0x40.
Definition MM67INT_MON : Z := 0x80.
Definition MM67_RSTCTR : Z := 18.
Definition MM67_RSTRAM : Z := 19.
Definition MM67_STATUS : Z := 20.
Definition MM67_GOCMD : Z := 21.
Definition MM67_STBYIRQ : Z := 22.
Definition MM67_TEST : Z := 31.

(** [leading_edge_rtc_t]: the NVR backend and the register that holds the
    year.  In C [nvr->data] points back to the device; here the functions
    that follow that pointer take the device itself. *)
Record leading_edge_rtc_t := mk_dev {
  nvr : nvr_t;
  year_reg : Z
}.

(** [regs[i]] and [regs[i] = v] on the byte array. *)
Definition reg_get (r : list Z) (i : Z) : Z := r !!! Z.to_nat i.
Definition reg_set (r : list Z) (i v : Z) : list Z := <[Z.to_nat i := to_u8 v]> r.

(** The device with its register array replaced. *)
Definition with_regs (dev : leading_edge_rtc_t) (r : list Z) : leading_edge_rtc_t :=
  mk_dev (mk_nvr r (nvr_size (nvr dev)) (irq (nvr dev))) (year_reg dev).

(** ** Alarm comparison *)

(** [mm67_chkalrm]: the alarm register [addr] matches when it equals the
    time register eight slots below it or has both top bits set. *)
Definition mm67_chkalrm (r : list Z) (addr : Z) : bool :=
  (reg_get r (addr - MM67_AL_SEC + MM67_SEC) =? reg_get r addr)
  || (Z.land (reg_get r addr) MM67_AL_DONTCARE =? MM67_AL_DONTCARE).

(** ** Host time to registers *)

(** [mm67_time_set]. *)
Definition mm67_time_set (dev : leading_edge_rtc_t) (t : tm) : leading_edge_rtc_t :=
  let r := regs (nvr dev) in
  let r := reg_set r MM67_MSEC 0 in
  let r := reg_set r MM67_HUNTEN 0 in
  let r := reg_set r MM67_SEC (RTC_BCD (tm_sec t)) in
  let r := reg_set r MM67_MIN (RTC_BCD (tm_min t)) in
  let r := reg_set r MM67_HOUR (RTC_BCD (tm_hour t)) in
  let r := reg_set r MM67_DOW (RTC_BCD (tm_wday t + 1)) in
  let r := reg_set r MM67_DOM (RTC_BCD (tm_mday t)) in
  let r := reg_set r MM67_MON (RTC_BCD (tm_mon t + 1)) in
  let r :=
    if 0 <=? year_reg dev then
      let year := tm_year t - 80 in
      reg_set r (year_reg dev) (RTC_BCD (Z.rem year 100))
    else r in
  with_regs dev r.

(** ** The tick engine *)

(** Lines 184-260 of [mm67_tick]: advance the time registers with their
    cascading rollovers and compute the event flags [f], the alarm check
    included.  The result is the register array and [f]. *)
Definition mm67_tick_update (dev : leading_edge_rtc_t) : list Z * Z :=
  let r := regs (nvr dev) in
  let f := 0 in
  let r := reg_set r MM67_SEC (RTC_BCDINC (reg_get r MM67_SEC) 1) in
  let f := if c_true (Z.land (reg_get r MM67_ICTRL) MM67INT_SEC) then MM67INT_SEC else f in
  let '(r, f) :=
    if RTC_BCD 60 <=? reg_get r MM67_SEC then
      let r := reg_set r MM67_SEC (RTC_BCD 0) in
      let r := reg_set r MM67_MIN (RTC_BCDINC (reg_get r MM67_MIN) 1) in
      let f := if c_true (Z.land (reg_get r MM67_ICTRL) MM67INT_MIN) then MM67INT_MIN else f in
      if RTC_BCD 60 <=? reg_get r MM67_MIN then
        let r := reg_set r MM67_MIN (RTC_BCD 0) in
        let r := reg_set r MM67_HOUR (RTC_BCDINC (reg_get r MM67_HOUR) 1) in
        let f := if c_true (Z.land (reg_get r MM67_ICTRL) MM67INT_HOUR) then MM67INT_HOUR else f in
        if RTC_BCD 24 <=? reg_get r MM67_HOUR then
          let r := reg_set r MM67_HOUR (RTC_BCD 0) in
          let r := reg_set r MM67_DOW (RTC_BCDINC (reg_get r MM67_DOW) 1) in
          let f := if c_true (Z.land (reg_get r MM67_ICTRL) MM67INT_DAY) then MM67INT_DAY else f in
          let '(r, f) :=
            if RTC_BCD 7 <? reg_get r MM67_DOW then
              let r := reg_set r MM67_DOW (RTC_BCD 1) in
              let f := if c_true (Z.land (reg_get r MM67_ICTRL) MM67INT_WEEK) then MM67INT_WEEK else f in
              (r, f)
            else (r, f) in
          let r := reg_set r MM67_DOM (RTC_BCDINC (reg_get r MM67_DOM) 1) in
          let mon := RTC_DCB (reg_get r MM67_MON) in
          let year :=
            if 0 <=? year_reg dev then RTC_DCB (reg_get r (year_reg dev)) + 80
            else 80 in
          let year := year + 1900 in
          if nvr_get_days mon year <? RTC_DCB (reg_get r MM67_DOM) then
            let r := reg_set r MM67_DOM (RTC_BCD 1) in
            let r := reg_set r MM67_MON (RTC_BCDINC (reg_get r MM67_MON) 1) in
            let f := if c_true (Z.land (reg_get r MM67_ICTRL) MM67INT_MON) then MM67INT_MON else f in
            if RTC_BCD 12 <? reg_get r MM67_MON then
              let r := reg_set r MM67_MON (RTC_BCD 1) in
              let r :=
                if 0 <=? year_reg dev then
                  let r := reg_set r (year_reg dev)
                             (RTC_BCDINC (reg_get r (year_reg dev)) 1) in
                  if RTC_BCD 100 <=? reg_get r (year_reg dev)
                  then reg_set r (year_reg dev) (RTC_BCD 0)
                  else r
                else r in
              (r, f)
            else (r, f)
          else (r, f)
        else (r, f)
      else (r, f)
    else (r, f) in
  let f :=
    if mm67_chkalrm r MM67_AL_SEC && mm67_chkalrm r MM67_AL_MIN
       && mm67_chkalrm r MM67_AL_HOUR && mm67_chkalrm r MM67_AL_DOM
       && mm67_chkalrm r MM67_AL_MON
    then Z.lor f MM67INT_COMPARE else f in
  (r, f).

(** [mm67_tick]: the update above, then lines 262-267: a non-zero [f] is
    ORed into the interrupt status register and, when an interrupt line is
    configured, [picint(1 << irq)] is called.  The second component lists
    the masks passed to [picint] by this call. *)
Definition mm67_tick (dev : leading_edge_rtc_t) : leading_edge_rtc_t * list Z :=
  let '(r, f) := mm67_tick_update dev in
  if c_true f then
    let r := reg_set r MM67_ISTAT (Z.lor (reg_get r MM67_ISTAT) f) in
    (with_regs dev r,
     if negb (irq (nvr dev) =? -1) then [Z.shiftl 1 (irq (nvr dev))] else [])
  else (with_regs dev r, []).

(** ** Lifecycle hooks *)

(** [mm67_start]: seed the time registers from the host time [now] (the
    value [nvr_time_get] delivers). *)
Definition mm67_start (dev : leading_edge_rtc_t) (now : tm) : leading_edge_rtc_t :=
  mm67_time_set dev now.

(** [mm67_reset]: [memset] the first [size] registers to zero, then start. *)
Definition mm67_reset (dev : leading_edge_rtc_t) (now : tm) : leading_edge_rtc_t :=
  let n := Z.to_nat (nvr_size (nvr dev)) in
  let r := replicate (min n (length (regs (nvr dev)))) 0
             ++ drop n (regs (nvr dev)) in
  mm67_start (with_regs dev r) now.

(** ** Port decoder *)

(** The register index of a port: [(port - 0x300) & 0x1f] as [uint8_t]. *)
Definition port_reg (port : Z) : Z := to_u8 (Z.land (port - 0x300) 0x1f).

(** [mm67_read]. *)
Definition mm67_read (port : Z) (dev : leading_edge_rtc_t) : Z :=
  let reg := port_reg port in
  let ret := 0xff in
  let ret := if reg <? MM67_REGS then reg_get (regs (nvr dev)) reg else ret in
  ret.

(** [mm67_write]; [now] is the host time should the write be a command that
    reseeds the clock. *)
Definition mm67_write (port val : Z) (dev : leading_edge_rtc_t) (now : tm)
  : leading_edge_rtc_t :=
  let reg := port_reg port in
  let r := regs (nvr dev) in
  if MM67_REGS <=? reg then dev
  else if reg =? MM67_RSTCTR then
    let r := reg_set r MM67_MSEC 0 in
    let r := reg_set r MM67_HUNTEN 0 in
    with_regs dev r
  else if reg =? MM67_RSTRAM then mm67_reset dev now
  else if reg =? MM67_GOCMD then mm67_start dev now
  else if reg =? MM67_ISTAT then with_regs dev (reg_set r reg 0)
  else if reg =? MM67_ICTRL then with_regs dev (reg_set r reg val)
  else with_regs dev (reg_set r reg val).

(** Lines 372-386 of [leading_edge_rtc_init]: the zeroed device with its
    backend fields filled in. *)
Definition leading_edge_rtc_alloc : leading_edge_rtc_t :=
  mk_dev (mk_nvr (replicate 32 0) MM67_REGS (-1)) MM67_AL_DOM.

(** Modelled from the spec: [nvr_init], which is not among the sources.
    "Initialize: allocate device state, zero registers, register the
    read/write dispatcher [...], then perform a reset." *)
Definition leading_edge_rtc_init (now : tm) : leading_edge_rtc_t :=
  mm67_reset leading_edge_rtc_alloc now.

(** * Specification vocabulary *)

(** ** Well-formed devices and register predicates *)

(** A [uint8_t] value. *)
Definition is_u8 (x : Z) : bool := (0 <=? x) && (x <? 256).

(** The device as [leading_edge_rtc_init] builds it: 32 byte-sized
    registers and the year kept in the alarm day-of-month slot. *)
Definition dev_ok (dev : leading_edge_rtc_t) : bool :=
  (length (regs (nvr dev)) =? 32)%nat && forallb is_u8 (regs (nvr dev))
  && (nvr_size (nvr dev) =? MM67_REGS) && (year_reg dev =? MM67_AL_DOM).

(** Valid BCD: both nibbles are decimal digits. *)
Definition valid_bcd (x : Z) : bool :=
  (0 <=? x) && (Z.land x 0x0f <=? 9) && (Z.shiftr x 4 <=? 9).

(** The don't-care sentinel of an alarm field: both top bits set. *)
Definition dontcare (x : Z) : bool :=
  Z.land x MM67_AL_DONTCARE =? MM67_AL_DONTCARE.

(** The byte left in a register by [regs[i] = RTC_BCDINC(regs[i], 1)]. *)
Definition next_bcd (x : Z) : Z := to_u8 (RTC_BCDINC x 1).

(** The interrupt status register of a device. *)
Definition istat (dev : leading_edge_rtc_t) : Z :=
  reg_get (regs (nvr dev)) MM67_ISTAT.

(** The six alarm fields (seconds to month) all hold the sentinel. *)
Definition alarm_all_dontcare (dev : leading_edge_rtc_t) : bool :=
  forallb (fun a => dontcare (reg_get (regs (nvr dev)) a))
    [MM67_AL_SEC; MM67_AL_MIN; MM67_AL_HOUR; MM67_AL_DOW; MM67_AL_DOM; MM67_AL_MON].

(** The device with another interrupt control mask. *)
Definition set_ictrl (dev : leading_edge_rtc_t) (mask : Z) : leading_edge_rtc_t :=
  with_regs dev (reg_set (regs (nvr dev)) MM67_ICTRL mask).

(** The device with another alarm day-of-week register. *)
Definition set_al_dow (dev : leading_edge_rtc_t) (v : Z) : leading_edge_rtc_t :=
  with_regs dev (reg_set (regs (nvr dev)) MM67_AL_DOW v).

(** ** The rollover conditions of the tick

    The conditions [mm67_tick] tests, as conditions on the state the tick
    starts from. *)

Definition sec_rolls (dev : leading_edge_rtc_t) : bool :=
  RTC_BCD 60 <=? next_bcd (reg_get (regs (nvr dev)) MM67_SEC).

Definition min_rolls (dev : leading_edge_rtc_t) : bool :=
  sec_rolls dev && (RTC_BCD 60 <=? next_bcd (reg_get (regs (nvr dev)) MM67_MIN)).

(** The hour wraps to 0: this is the tick that increments the day. *)
Definition hour_rolls (dev : leading_edge_rtc_t) : bool :=
  min_rolls dev && (RTC_BCD 24 <=? next_bcd (reg_get (regs (nvr dev)) MM67_HOUR)).

(** The days-in-month bound the tick computes: the binary month and the
    binary year rebuilt from the base-80 year register. *)
Definition days_this_month (dev : leading_edge_rtc_t) : Z :=
  nvr_get_days (RTC_DCB (reg_get (regs (nvr dev)) MM67_MON))
               (RTC_DCB (reg_get (regs (nvr dev)) (year_reg dev)) + 80 + 1900).

(** The day of the month wraps to 1: the month is incremented. *)
Definition dom_rolls (dev : leading_edge_rtc_t) : bool :=
  hour_rolls dev
  && (days_this_month dev <? RTC_DCB (next_bcd (reg_get (regs (nvr dev)) MM67_DOM))).

(** The month wraps to 1: the year register is incremented. *)
Definition mon_rolls (dev : leading_edge_rtc_t) : bool :=
  dom_rolls dev && (RTC_BCD 12 <? next_bcd (reg_get (regs (nvr dev)) MM67_MON)).

(** ** Runs of the device *)

(** What the surrounding emulator does to the device: the one-second timer
    fires, or a port is written (with the host time at that moment). *)
Inductive event : Type :=
| EvTick
| EvWrite (port val : Z) (now : tm).

(** A run; the second component collects the [picint] masks. *)
Fixpoint run (dev : leading_edge_rtc_t) (evs : list event)
  : leading_edge_rtc_t * list Z :=
  match evs with
  | [] => (dev, [])
  | EvTick :: evs =>
      let '(dev, p) := mm67_tick dev in
      let '(dev, q) := run dev evs in
      (dev, p ++ q)
  | EvWrite port val now :: evs => run (mm67_write port val dev now) evs
  end.

(** [n] ticks in a row. *)
Definition ticks (n : nat) : list event := replicate n EvTick.

(** No tick of the run records an event. *)
Fixpoint no_event (dev : leading_edge_rtc_t) (evs : list event) : bool :=
  match evs with
  | [] => true
  | EvTick :: evs =>
      (snd (mm67_tick_update dev) =? 0) && no_event (fst (mm67_tick dev)) evs
  | EvWrite port val now :: evs => no_event (mm67_write port val dev now) evs
  end.

(** ** The BCD invariant of the time fields *)

(** A month register holding 01..12 in BCD. *)
Definition month_ok (m : Z) : bool :=
  valid_bcd m && (1 <=? RTC_DCB m) && (RTC_DCB m <=? 12).

(** The registers that hold a time field: seconds to month, and the year
    kept in the alarm day-of-month slot. *)
Definition is_time_reg (reg : Z) : bool :=
  (reg =? MM67_SEC) || (reg =? MM67_MIN) || (reg =? MM67_HOUR)
  || (reg =? MM67_DOW) || (reg =? MM67_DOM) || (reg =? MM67_MON)
  || (reg =? MM67_AL_DOM).

(** Every time field holds valid BCD, the month a month. *)
Definition time_ok (dev : leading_edge_rtc_t) : bool :=
  let r := regs (nvr dev) in
  valid_bcd (reg_get r MM67_SEC) && valid_bcd (reg_get r MM67_MIN)
  && valid_bcd (reg_get r MM67_HOUR) && valid_bcd (reg_get r MM67_DOW)
  && valid_bcd (reg_get r MM67_DOM) && month_ok (reg_get r MM67_MON)
  && valid_bcd (reg_get r MM67_AL_DOM).

(** A host calendar time within the ranges of [struct tm], not before
    1980 (the year is stored relative to 1980). *)
Definition tm_ok (t : tm) : bool :=
  (0 <=? tm_sec t) && (tm_sec t <=? 60)
  && (0 <=? tm_min t) && (tm_min t <=? 59)
  && (0 <=? tm_hour t) && (tm_hour t <=? 23)
  && (1 <=? tm_mday t) && (tm_mday t <=? 31)
  && (0 <=? tm_mon t) && (tm_mon t <=? 11)
  && (0 <=? tm_wday t) && (tm_wday t <=? 6)
  && (80 <=? tm_year t).

(** An event that keeps the time fields BCD: a command that reseeds the
    clock comes with a well-formed host time, and a byte written to a time
    field is valid BCD (a month for the month register). *)
Definition event_ok (ev : event) : bool :=
  match ev with
  | EvTick => true
  | EvWrite port val now =>
      let reg := port_reg port in
      if (reg =? MM67_RSTRAM) || (reg =? MM67_GOCMD) then tm_ok now
      else if reg =? MM67_MON then month_ok val
      else if is_time_reg reg then valid_bcd val
      else true
  end.

(** ** Sample states *)

(** A device with the given 32 registers, no interrupt line and the year
    in register 14, as [leading_edge_rtc_init] configures it.  Register
    layout: 2..7 = sec, min, hour, dow, dom, mon; 10..15 = alarm sec, min,
    hour, dow, year, alarm mon; 16 = status; 17 = control. *)
Definition sample_dev (r : list Z) : leading_edge_rtc_t :=
  mk_dev (mk_nvr r MM67_REGS (-1)) MM67_AL_DOM.

(** Friday 30 October 2026, 10:15:30, as a host time. *)
Definition host_time : tm := mk_tm 30 15 10 30 9 126 5.

(** 12:34:59 on 15 June (day of the week 3, year register 0x45), second
    and minute interrupts enabled (control 0x0c), status 0. *)
Definition dev_12_34_59 : leading_edge_rtc_t :=
  sample_dev [0; 0; 0x59; 0x34; 0x12; 0x03; 0x15; 0x06;
              0; 0; 0; 0; 0; 0; 0x45; 0;
              0; 0x0c; 0; 0; 0; 0; 0; 0;
              0; 0; 0; 0; 0; 0; 0; 0].

(** 12:34:59 with all eight alarm registers set to the sentinel. *)
Definition dev_alarm_any : leading_edge_rtc_t :=
  sample_dev [0; 0; 0x59; 0x34; 0x12; 0x03; 0x15; 0x06;
              0xc0; 0xc0; 0xc0; 0xc0; 0xc0; 0xc0; 0xc0; 0xc0;
              0; 0; 0; 0; 0; 0; 0; 0;
              0; 0; 0; 0; 0; 0; 0; 0].

(** 31 December, 23:59:59, all eight alarm registers set to the sentinel,
    every interrupt enabled. *)
Definition dev_alarm_any_dec31 : leading_edge_rtc_t :=
  sample_dev [0; 0; 0x59; 0x59; 0x23; 0x07; 0x31; 0x12;
              0xc0; 0xc0; 0xc0; 0xc0; 0xc0; 0xc0; 0xc0; 0xc0;
              0; 0xff; 0; 0; 0; 0; 0; 0;
              0; 0; 0; 0; 0; 0; 0; 0].

(** Saturday (day 7) 15 January 2000, 23:59:59. *)
Definition dev_jan15 : leading_edge_rtc_t :=
  sample_dev [0; 0; 0x59; 0x59; 0x23; 0x07; 0x15; 0x01;
              0; 0; 0; 0; 0; 0; 0x20; 0;
              0; 0; 0; 0; 0; 0; 0; 0;
              0; 0; 0; 0; 0; 0; 0; 0].

(** Monday (day 2) 31 January 2000, 23:59:59. *)
Definition dev_jan31 : leading_edge_rtc_t :=
  sample_dev [0; 0; 0x59; 0x59; 0x23; 0x02; 0x31; 0x01;
              0; 0; 0; 0; 0; 0; 0x20; 0;
              0; 0; 0; 0; 0; 0; 0; 0;
              0; 0; 0; 0; 0; 0; 0; 0].

(** Monday (day 2) 28 February 2000, 23:59:59: stored year 0x20. *)
Definition dev_feb28_2000 : leading_edge_rtc_t :=
  sample_dev [0; 0; 0x59; 0x59; 0x23; 0x02; 0x28; 0x02;
              0; 0; 0; 0; 0; 0; 0x20; 0;
              0; 0; 0; 0; 0; 0; 0; 0;
              0; 0; 0; 0; 0; 0; 0; 0].

(** 31 December, 23:59:59, year register 0x99. *)
Definition dev_dec31_99 : leading_edge_rtc_t :=
  sample_dev [0; 0; 0x59; 0x59; 0x23; 0x01; 0x31; 0x12;
              0; 0; 0; 0; 0; 0; 0x99; 0;
              0; 0; 0; 0; 0; 0; 0; 0;
              0; 0; 0; 0; 0; 0; 0; 0].

(** 12:34:56 with interrupt status 0xff, no interrupt enabled and an
    alarm (00:00:00 on day 45 of month 0) that never matches. *)
Definition dev_quiet : leading_edge_rtc_t :=
  sample_dev [0; 0; 0x56; 0x34; 0x12; 0x03; 0x15; 0x06;
              0; 0; 0; 0; 0; 0; 0x45; 0;
              0xff; 0; 0; 0; 0; 0; 0; 0;
              0; 0; 0; 0; 0; 0; 0; 0].

(** A device whose registers hold 1..32. *)
Definition dev_counting : leading_edge_rtc_t :=
  sample_dev (map Z.of_nat (seq 1 32)).
(** ** Registers to host time *)

(** [mm67_time_get]: decode the time registers into [t]; the year is
    written only when a year register is configured. *)
Definition mm67_time_get (dev : leading_edge_rtc_t) (t : tm) : tm :=
  let r := regs (nvr dev) in
  mk_tm (RTC_DCB (reg_get r MM67_SEC))
        (RTC_DCB (reg_get r MM67_MIN))
        (RTC_DCB (reg_get r MM67_HOUR))
        (RTC_DCB (reg_get r MM67_DOM))
        (RTC_DCB (reg_get r MM67_MON) - 1)
        (if 0 <=? year_reg dev
         then RTC_DCB (reg_get r (year_reg dev)) + 80
         else tm_year t)
        (RTC_DCB (reg_get r MM67_DOW) - 1).

(** ** Calendar-valid clocks *)

(** The time registers hold a time of the calendar: seconds and minutes
    00..59, hour 00..23, day of the week 1..7, month 01..12, a BCD year,
    and a day of the month between 01 and the length of that month. *)
Definition calendar_ok (dev : leading_edge_rtc_t) : bool :=
  let r := regs (nvr dev) in
  valid_bcd (reg_get r MM67_SEC) && (RTC_DCB (reg_get r MM67_SEC) <=? 59)
  && valid_bcd (reg_get r MM67_MIN) && (RTC_DCB (reg_get r MM67_MIN) <=? 59)
  && valid_bcd (reg_get r MM67_HOUR) && (RTC_DCB (reg_get r MM67_HOUR) <=? 23)
  && (1 <=? reg_get r MM67_DOW) && (reg_get r MM67_DOW <=? 7)
  && month_ok (reg_get r MM67_MON)
  && valid_bcd (reg_get r MM67_AL_DOM)
  && valid_bcd (reg_get r MM67_DOM) && (1 <=? RTC_DCB (reg_get r MM67_DOM))
  && (RTC_DCB (reg_get r MM67_DOM) <=? days_this_month dev).

(** The registers a tick may change: the six time fields, the year
    register and the interrupt status. *)
Definition tick_may_change (reg : Z) : bool :=
  is_time_reg reg || (reg =? MM67_ISTAT).

(** The registers a port write stores verbatim: every register but the
    three commands and the interrupt status. *)
Definition plain_reg (reg : Z) : bool :=
  negb ((reg =? MM67_RSTCTR) || (reg =? MM67_RSTRAM) || (reg =? MM67_GOCMD)
        || (reg =? MM67_ISTAT)).

(** The calendar successor of a host time: one second later, with the
    carries into minute, hour, day (and day of the week), month and
    year. *)
Definition tm_next (t : tm) : tm :=
  if tm_sec t <? 59 then
    mk_tm (tm_sec t + 1) (tm_min t) (tm_hour t) (tm_mday t) (tm_mon t)
          (tm_year t) (tm_wday t)
  else if tm_min t <? 59 then
    mk_tm 0 (tm_min t + 1) (tm_hour t) (tm_mday t) (tm_mon t) (tm_year t) (tm_wday t)
  else if tm_hour t <? 23 then
    mk_tm 0 0 (tm_hour t + 1) (tm_mday t) (tm_mon t) (tm_year t) (tm_wday t)
  else
    let wday := if tm_wday t <? 6 then tm_wday t + 1 else 0 in
    if tm_mday t <? nvr_get_days (tm_mon t + 1) (tm_year t + 1900) then
      mk_tm 0 0 0 (tm_mday t + 1) (tm_mon t) (tm_year t) wday
    else if tm_mon t <? 11 then
      mk_tm 0 0 0 1 (tm_mon t + 1) (tm_year t) wday
    else
      mk_tm 0 0 0 1 0 (tm_year t + 1) wday.

(** * The integrated video adapter

    The port and memory handlers of [src/video/vid_leading_edge.c].  The
    CGA core ([cga_out], [cga_in], [cga_poll] and the [cga_t] structure of
    [86box/vid_cga.h]) is not among the sources: the three functions are
    parameters, and of [cga_t] the model has the fields this file uses and
    one field for all the others. *)

Section LeCga.

Variable cga_core : Type.

(** [cga_t]: the 32 KB of video memory, the character buffer of the snow
    effect, the snow switch, and the rest of the structure. *)
Record cga_t := mk_cga {
  vram : list Z;
  charbuffer : list Z;
  snow_enabled : Z;
  cga_other : cga_core
}.

(** [le_cga_t]. *)
Record le_cga_t := mk_le_cga {
  cga : cga_t;
  ext_mode : Z
}.

Variable cga_out : Z -> Z -> cga_t -> cga_t.
Variable cga_in : Z -> cga_t -> Z * cga_t.
Variable cga_poll : cga_t -> cga_t.

Definition LE_EXT_MODE_REGISTER : Z := 0x3DF.
Definition LE_MODE_640x200x16 : Z := 0x01.
Definition LE_MODE_ENABLE_EXT : Z := 0x80.

(** [le_cga_out]. *)
Definition le_cga_out (addr val : Z) (le : le_cga_t) : le_cga_t :=
  if (addr =? 0x3d4) || (addr =? 0x3d5) || (addr =? 0x3d8) || (addr =? 0x3d9)
  then mk_le_cga (cga_out addr val (cga le)) (ext_mode le)
  else if addr =? LE_EXT_MODE_REGISTER
  then mk_le_cga (cga le) (to_u8 val)
  else le.

(** [le_cga_in]: the byte read and the device after the read. *)
Definition le_cga_in (addr : Z) (le : le_cga_t) : Z * le_cga_t :=
  let ret := 0xff in
  if (addr =? 0x3d4) || (addr =? 0x3d5) || (addr =? 0x3da)
  then let '(ret, c) := cga_in addr (cga le) in (ret, mk_le_cga c (ext_mode le))
  else if addr =? LE_EXT_MODE_REGISTER
  then (ext_mode le, le)
  else (ret, le).

(** The character buffer slot of the snow effect:
    [((timer_get_remaining_u64(..) / CGACONST) * 4) & 0xfc], computed on
    [uint64_t]; [remaining] is the timer value and [cgaconst] the clock
    constant at the time of the access (not 0: the C code divides by
    it). *)
Definition snow_offset (remaining cgaconst : Z) : Z :=
  Z.land ((remaining / cgaconst * 4) mod 2 ^ 64) 0xfc.

(** [le_cga_write]. *)
Definition le_cga_write (remaining cgaconst : Z) (addr val : Z) (le : le_cga_t)
  : le_cga_t :=
  let c := cga le in
  let v := reg_set (vram c) (Z.land addr 0x7FFF) val in
  let cb :=
    if c_true (snow_enabled c) then
      let offset := snow_offset remaining cgaconst in
      let cb := reg_set (charbuffer c) offset (reg_get v (Z.land addr 0x7fff)) in
      reg_set cb (Z.lor offset 1) (reg_get v (Z.land addr 0x7fff))
    else charbuffer c in
  mk_le_cga (mk_cga v cb (snow_enabled c) (cga_other c)) (ext_mode le).

(** [le_cga_read]: the byte read and the device after the read. *)
Definition le_cga_read (remaining cgaconst : Z) (addr : Z) (le : le_cga_t)
  : Z * le_cga_t :=
  let c := cga le in
  let cb :=
    if c_true (snow_enabled c) then
      let offset := snow_offset remaining cgaconst in
      let cb := reg_set (charbuffer c) offset
                  (reg_get (vram c) (Z.land addr 0x7fff)) in
      reg_set cb (Z.lor offset 1) (reg_get (vram c) (Z.land addr 0x7fff))
    else charbuffer c in
  (reg_get (vram c) (Z.land addr 0x7FFF),
   mk_le_cga (mk_cga (vram c) cb (snow_enabled c) (cga_other c)) (ext_mode le)).

(** [le_cga_render_640x200x16]: the proprietary mode is not implemented
    and falls back to the CGA renderer. *)
Definition le_cga_render_640x200x16 (le : le_cga_t) : le_cga_t :=
  mk_le_cga (cga_poll (cga le)) (ext_mode le).

(** [le_cga_poll]. *)
Definition le_cga_poll (le : le_cga_t) : le_cga_t :=
  if c_true (Z.land (ext_mode le) LE_MODE_ENABLE_EXT)
     && c_true (Z.land (ext_mode le) LE_MODE_640x200x16)
  then le_cga_render_640x200x16 le
  else mk_le_cga (cga_poll (cga le)) (ext_mode le).

End LeCga.

Arguments mk_cga {cga_core}.
Arguments vram {cga_core}.
Arguments charbuffer {cga_core}.
Arguments snow_enabled {cga_core}.
Arguments cga_other {cga_core}.
Arguments mk_le_cga {cga_core}.
Arguments cga {cga_core}.
Arguments ext_mode {cga_core}.
Arguments le_cga_out {cga_core}.
Arguments le_cga_in {cga_core}.
Arguments le_cga_write {cga_core}.
Arguments le_cga_read {cga_core}.
Arguments le_cga_render_640x200x16 {cga_core}.
Arguments le_cga_poll {cga_core}.

(** A video device with zeroed memory, the snow effect on and the
    extended mode register at 0, as [le_cga_init] sets them; the rest of
    the CGA core is left out. *)
Definition sample_le_cga : le_cga_t unit :=
  mk_le_cga (mk_cga (replicate (Z.to_nat 0x8000) 0) (replicate 256 0) 1 tt) 0x00.

(** * Machine initialization

    [src/machine/m_xt_leading_edge.c]: the calls the initialization makes,
    in order, and the game port type it selects.  The callees belong to
    the emulator core; they are recorded, not modelled. *)

Inductive machine_device : Type := kbc_xt_device | fdc_xt_device.

Inductive gameport_type : Type := gameport_200_device | gameport_device.

Inductive machine_call : Type :=
| call_bios_load_linear
| call_device_add (d : machine_device)
| call_machine_common_init
| call_pit_set_out_func
| call_nmi_init.

(** [machine_xt_leading_edge_d_init]: [ret] is the result of
    [bios_load_linear], [bios_only] the global of that name,
    [fdc_internal] whether [fdc_current[0] == FDC_INTERNAL], [gp] the
    value of [standalone_gameport_type] on entry.  The result is the
    return value, the calls made and the game port type on exit. *)
Definition machine_xt_leading_edge_d_init
    (ret : Z) (bios_only fdc_internal : bool) (gp : gameport_type)
  : Z * list machine_call * gameport_type :=
  let calls := [call_bios_load_linear] in
  if bios_only || negb (c_true ret) then (ret, calls, gp)
  else
    let calls := calls ++ [call_device_add kbc_xt_device] in
    let calls := calls ++ [call_machine_common_init] in
    let calls := calls ++ [call_pit_set_out_func] in
    let calls := calls ++ [call_nmi_init] in
    let gp := gameport_200_device in
    let calls := calls ++ [call_pit_set_out_func] in
    let calls :=
      if fdc_internal then calls ++ [call_device_add fdc_xt_device] else calls in
    let calls := calls ++ [call_nmi_init] in
    let gp := gameport_device in
    (ret, calls, gp).

(** [machine_xt_leading_edge_d_turbo_init]. *)
Definition machine_xt_leading_edge_d_turbo_init
    (ret : Z) (bios_only fdc_internal : bool) (gp : gameport_type)
  : Z * list machine_call * gameport_type :=
  machine_xt_leading_edge_d_init ret bios_only fdc_internal gp.

(** * Proof infrastructure *)

(** ** The codec on the values the spec lists *)

Example bcd_increment_carries :
  RTC_BCDINC 0x09 1 = 0x10 /\ RTC_BCDINC 0x49 1 = 0x50 /\ RTC_BCDINC 0x59 1 = 0x60.
Proof. repeat split. Qed.

(** The increment of 0x99 is the [int] 0xa0, which is [RTC_BCD(100)]: the
    tick's own check turns it into 0x00. *)
Example bcd_increment_99 : RTC_BCDINC 0x99 1 = 0xa0 /\ RTC_BCD 100 = 0xa0.
Proof. repeat split. Qed.

Example bcd_decode_encode : RTC_DCB 0x59 = 59 /\ RTC_BCD 59 = 0x59.
Proof. repeat split. Qed.

Example february_lengths :
  nvr_get_days 2 2000 = 29 /\ nvr_get_days 2 2100 = 28
  /\ nvr_get_days 2 2024 = 29 /\ nvr_get_days 2 2025 = 28.
Proof. repeat split. Qed.

(** Ports alias modulo 32. *)
Example port_aliasing : port_reg 0x320 = port_reg 0x300 /\ port_reg 0x310 = MM67_ISTAT.
Proof. repeat split. Qed.

(** ** Devices as explicit register arrays *)

(** Turn a list of length 32 into its 32 elements. *)
Ltac explode_list l :=
  do 32 (destruct l as [|? l]; [discriminate|]); destruct l; [|discriminate].

(** A well-formed device is an explicit array of 32 registers. *)
Lemma dev_ok_inv dev :
  dev_ok dev = true ->
  exists r0 r1 r2 r3 r4 r5 r6 r7 r8 r9 r10 r11 r12 r13 r14 r15
         r16 r17 r18 r19 r20 r21 r22 r23 r24 r25 r26 r27 r28 r29 r30 r31 i,
    dev = mk_dev (mk_nvr [r0;r1;r2;r3;r4;r5;r6;r7;r8;r9;r10;r11;r12;r13;r14;r15;
                          r16;r17;r18;r19;r20;r21;r22;r23;r24;r25;r26;r27;r28;r29;r30;r31]
                         32 i) 14.
Proof.
  destruct dev as [[l s i] y]. unfold dev_ok. cbn [regs nvr nvr_size year_reg].
  intros H. apply andb_prop in H as [H Hy]. apply andb_prop in H as [H Hs].
  apply andb_prop in H as [Hl _].
  apply Z.eqb_eq in Hy, Hs. subst. apply Nat.eqb_eq in Hl.
  explode_list l. do 33 eexists. reflexivity.
Qed.

(** Replace a well-formed device by its explicit form. *)
Ltac open_dev dev H :=
  let E := fresh "E" in
  destruct (dev_ok_inv dev H)
    as (?r0&?r1&?r2&?r3&?r4&?r5&?r6&?r7&?r8&?r9&?r10&?r11&?r12&?r13&?r14&?r15
        &?r16&?r17&?r18&?r19&?r20&?r21&?r22&?r23&?r24&?r25&?r26&?r27&?r28&?r29
        &?r30&?r31&?i&E);
  subst dev.

(** Evaluate register reads and writes on explicit arrays; arithmetic on
    the register contents is left alone. *)
Ltac regs_cbv :=
  cbv beta iota zeta delta
    [mm67_tick mm67_tick_update mm67_chkalrm with_regs regs nvr year_reg irq
     nvr_size reg_get reg_set istat next_bcd
     sec_rolls min_rolls hour_rolls dom_rolls mon_rolls days_this_month
     lookup_total list_lookup_total insert list_insert fst snd
     Z.to_nat Pos.to_nat Pos.iter_op Init.Nat.add Nat.add
     MM67_MSEC MM67_HUNTEN MM67_SEC MM67_MIN MM67_HOUR MM67_DOW MM67_DOM MM67_MON
     MM67_AL_SEC MM67_AL_MIN MM67_AL_HOUR MM67_AL_DOW MM67_AL_DOM MM67_AL_MON
     MM67_ISTAT MM67_ICTRL].

Ltac regs_cbv_in H :=
  cbv beta iota zeta delta
    [mm67_tick mm67_tick_update mm67_chkalrm with_regs regs nvr year_reg irq
     nvr_size reg_get reg_set istat next_bcd
     sec_rolls min_rolls hour_rolls dom_rolls mon_rolls days_this_month
     lookup_total list_lookup_total insert list_insert fst snd
     Z.to_nat Pos.to_nat Pos.iter_op Init.Nat.add Nat.add
     MM67_MSEC MM67_HUNTEN MM67_SEC MM67_MIN MM67_HOUR MM67_DOW MM67_DOM MM67_MON
     MM67_AL_SEC MM67_AL_MIN MM67_AL_HOUR MM67_AL_DOW MM67_AL_DOM MM67_AL_MON
     MM67_ISTAT MM67_ICTRL] in H.

(** The time register [mm67_chkalrm] compares an alarm register with. *)
Ltac norm_idx :=
  change (10 - 10 + 2) with 2 in *; change (11 - 10 + 2) with 3 in *;
  change (12 - 10 + 2) with 4 in *; change (14 - 10 + 2) with 6 in *;
  change (15 - 10 + 2) with 7 in *; change (0 <=? 14) with true in *.

(** Register reads and writes on arrays of any length. *)
Lemma length_reg_set r i v : length (reg_set r i v) = length r.
Proof. unfold reg_set. apply length_insert. Qed.

Lemma reg_get_set_eq r i v :
  (Z.to_nat i < length r)%nat -> reg_get (reg_set r i v) i = to_u8 v.
Proof. intros H. unfold reg_get, reg_set. by apply list_lookup_total_insert_eq. Qed.

Lemma reg_get_set_ne r i j v :
  Z.to_nat i <> Z.to_nat j -> reg_get (reg_set r i v) j = reg_get r j.
Proof. intros H. unfold reg_get, reg_set. by apply list_lookup_total_insert_ne. Qed.

Lemma to_u8_range x : 0 <= to_u8 x < 256.
Proof. unfold to_u8. apply Z.mod_pos_bound. lia. Qed.

Lemma is_u8_to_u8 x : is_u8 (to_u8 x) = true.
Proof. pose proof (to_u8_range x). unfold is_u8. lia. Qed.

Lemma to_u8_id x : is_u8 x = true -> to_u8 x = x.
Proof. unfold is_u8, to_u8. intros H. apply Z.mod_small. lia. Qed.

Lemma forallb_is_u8_reg_set r i v :
  forallb is_u8 r = true -> forallb is_u8 (reg_set r i v) = true.
Proof.
  unfold reg_set. generalize (Z.to_nat i) as n. induction r as [|x r IH]; intros n H.
  - reflexivity.
  - cbn [forallb] in H. apply andb_prop in H as [Hx Hr].
    destruct n; cbn [insert list_insert forallb].
    + by rewrite is_u8_to_u8, Hr.
    + rewrite Hx. cbn [andb]. by apply IH.
Qed.

(** A property of bytes holds when it holds of each of the 256 bytes. *)
Lemma byte_forall (P : Z -> bool) :
  forallb P (map Z.of_nat (seq 0 256)) = true ->
  forall x, is_u8 x = true -> P x = true.
Proof.
  intros H x Hx. rewrite forallb_forall in H. apply H.
  apply in_map_iff. exists (Z.to_nat x). unfold is_u8 in Hx.
  split; [lia|]. apply in_seq. lia.
Qed.

(** Replacing the registers keeps a device well formed when the new array
    is. *)
Lemma dev_ok_with_regs dev r :
  dev_ok dev = true -> length r = 32%nat -> forallb is_u8 r = true ->
  dev_ok (with_regs dev r) = true.
Proof.
  unfold dev_ok, with_regs. cbn [regs nvr nvr_size year_reg].
  intros H Hl Hb. rewrite Hl, Hb.
  apply andb_prop in H as [H Hy]. apply andb_prop in H as [_ Hs].
  by rewrite Hs, Hy.
Qed.

Lemma dev_ok_length dev : dev_ok dev = true -> length (regs (nvr dev)) = 32%nat.
Proof.
  unfold dev_ok. intros H. apply andb_prop in H as [H _].
  apply andb_prop in H as [H _]. apply andb_prop in H as [H _].
  by apply Nat.eqb_eq.
Qed.

Lemma dev_ok_bytes dev : dev_ok dev = true -> forallb is_u8 (regs (nvr dev)) = true.
Proof.
  unfold dev_ok. intros H. apply andb_prop in H as [H _].
  apply andb_prop in H as [H _]. by apply andb_prop in H as [_ H].
Qed.

Lemma dev_ok_year_reg dev : dev_ok dev = true -> year_reg dev = MM67_AL_DOM.
Proof. unfold dev_ok. intros H. apply andb_prop in H as [_ H]. by apply Z.eqb_eq. Qed.

Lemma dev_ok_size dev : dev_ok dev = true -> nvr_size (nvr dev) = MM67_REGS.
Proof.
  unfold dev_ok. intros H. apply andb_prop in H as [H _].
  apply andb_prop in H as [_ H]. by apply Z.eqb_eq.
Qed.

Lemma reg_get_byte r i : forallb is_u8 r = true -> is_u8 (reg_get r i) = true.
Proof.
  unfold reg_get. generalize (Z.to_nat i) as n.
  induction r as [|x r IH]; intros n H; [reflexivity|].
  cbn [forallb] in H. apply andb_prop in H as [Hx Hr].
  destruct n; cbn; [done|]. by apply IH.
Qed.

(** ** Symbolic execution of the tick on an explicit register array *)

Ltac has_var c := match c with context [?x] => is_var x end.

(** Decide one rollover condition of the goal: evaluate it when it is
    closed, split on it otherwise. *)
Ltac is_rollover_test c :=
  match c with
  | Z.leb _ _ => idtac
  | Z.ltb _ _ => idtac
  end.

Ltac eval_closed_if :=
  match goal with
  | |- context [if ?c then _ else _] =>
      is_rollover_test c; tryif has_var c then fail else
      let v := eval vm_compute in c in
      match v with
      | true => change c with true
      | false => change c with false
      end
  end.

Ltac split_open_if :=
  match goal with
  | |- context [if ?c then _ else _] =>
      is_rollover_test c; destruct c eqn:?
  end.

Ltac step_if := first [eval_closed_if | split_open_if]; regs_cbv.

(** Run the update phase along every path of its rollover tests. *)
Ltac tick_open :=
  cbv beta delta [mm67_tick mm67_tick_update mm67_chkalrm
                  MM67_AL_SEC MM67_AL_MIN MM67_AL_HOUR MM67_AL_DOM MM67_AL_MON MM67_SEC];
  norm_idx; regs_cbv.

Ltac tick_crunch := tick_open; repeat step_if.

Ltac split_andb :=
  repeat match goal with
  | H : _ && _ = true |- _ => apply andb_prop in H as [? ?]
  end.

(** The tick keeps the device well formed. *)
Lemma dev_ok_tick dev : dev_ok dev = true -> dev_ok (fst (mm67_tick dev)) = true.
Proof.
  intros H. pose proof (dev_ok_bytes dev H) as Hb. open_dev dev H.
  cbn [regs nvr forallb] in Hb. split_andb.
  tick_crunch;
    repeat match goal with
    | |- context [if ?c then _ else _] => destruct c
    end;
    cbv beta iota delta [fst dev_ok regs nvr nvr_size year_reg length forallb
                         Nat.eqb];
    rewrite ?is_u8_to_u8; repeat match goal with H : is_u8 _ = true |- _ => rewrite H end;
    reflexivity.
Qed.

(** ** The tick in terms of its update phase *)

Lemma mm67_tick_eq dev :
  mm67_tick dev =
    (with_regs dev
       (if c_true (snd (mm67_tick_update dev))
        then reg_set (fst (mm67_tick_update dev)) MM67_ISTAT
               (Z.lor (reg_get (fst (mm67_tick_update dev)) MM67_ISTAT)
                      (snd (mm67_tick_update dev)))
        else fst (mm67_tick_update dev)),
     if c_true (snd (mm67_tick_update dev)) && negb (irq (nvr dev) =? -1)
     then [Z.shiftl 1 (irq (nvr dev))] else []).
Proof.
  unfold mm67_tick. destruct (mm67_tick_update dev) as [r f]. cbn [fst snd].
  destruct (c_true f); [|reflexivity]. cbn [andb]. reflexivity.
Qed.

(** Apart from the interrupt status, the registers after a tick are those
    of the update phase. *)
Lemma tick_reg dev j :
  Z.to_nat j <> 16%nat ->
  reg_get (regs (nvr (fst (mm67_tick dev)))) j = reg_get (fst (mm67_tick_update dev)) j.
Proof.
  intros Hj. rewrite mm67_tick_eq. cbn [fst with_regs regs nvr].
  destruct (c_true _); [|reflexivity]. by apply reg_get_set_ne.
Qed.

Lemma valid_bcd_is_u8 x : valid_bcd x = true -> is_u8 x = true.
Proof.
  unfold valid_bcd, is_u8. intros H. split_andb.
  rewrite Z.shiftr_div_pow2 in * by lia. change (2 ^ 4) with 16 in *.
  assert (x / 16 <= 9) by lia.
  assert (x < 160); [|lia].
  pose proof (Z.div_mod x 16). pose proof (Z.mod_pos_bound x 16). lia.
Qed.

(** On valid BCD the stored increment is the BCD encoding of the successor. *)
Lemma next_bcd_valid x :
  valid_bcd x = true ->
  next_bcd x = RTC_BCD (RTC_DCB x + 1) /\ RTC_DCB (next_bcd x) = RTC_DCB x + 1.
Proof.
  intros H. pose proof (valid_bcd_is_u8 x H) as Hu. revert H.
  pose proof (byte_forall
    (fun x => implb (valid_bcd x)
                ((next_bcd x =? RTC_BCD (RTC_DCB x + 1))
                 && (RTC_DCB (next_bcd x) =? RTC_DCB x + 1)))) as B.
  specialize (B eq_refl x Hu). cbv beta in B. intros H. rewrite H in B.
  cbn [implb] in B. apply andb_prop in B as [B1 B2]. lia.
Qed.

(** ** Event flags and the interrupt status register *)

Ltac split_all_ifs :=
  repeat match goal with
  | |- context [if ?c then _ else _] => destruct c eqn:?
  end.

(** The update phase leaves the interrupt status register alone. *)
Lemma tick_update_istat dev :
  dev_ok dev = true ->
  reg_get (fst (mm67_tick_update dev)) MM67_ISTAT = istat dev.
Proof. intros H. open_dev dev H. tick_crunch; reflexivity. Qed.

(** The flags fit in a byte. *)
Lemma tick_update_flags_byte dev :
  dev_ok dev = true -> is_u8 (snd (mm67_tick_update dev)) = true.
Proof. intros H. open_dev dev H. tick_crunch; split_all_ifs; reflexivity. Qed.

Lemma to_u8_lor a b : to_u8 (Z.lor a b) = Z.lor (to_u8 a) (to_u8 b).
Proof.
  unfold to_u8. change 256 with (2 ^ 8).
  rewrite <- !Z.land_ones by lia. apply Z.land_lor_distr_l.
Qed.

Lemma c_true_false x : c_true x = false -> x = 0.
Proof. unfold c_true. intros H. apply negb_false_iff in H. lia. Qed.

(** After a tick the interrupt status register is its old content ORed
    with the flags the update phase recorded. *)
Lemma tick_istat dev :
  dev_ok dev = true ->
  istat (fst (mm67_tick dev)) = Z.lor (istat dev) (snd (mm67_tick_update dev)).
Proof.
  intros H. pose proof (tick_update_istat dev H) as Hi.
  pose proof (tick_update_flags_byte dev H) as Hf.
  pose proof (reg_get_byte _ MM67_ISTAT (dev_ok_bytes dev H)) as Hb.
  assert (length (fst (mm67_tick_update dev)) = 32%nat) as Hl.
  { clear Hi Hf Hb. open_dev dev H. tick_crunch; reflexivity. }
  unfold istat at 1. rewrite mm67_tick_eq. cbn [fst with_regs regs nvr].
  destruct (c_true _) eqn:Hc.
  - rewrite reg_get_set_eq by (rewrite Hl; cbv; lia).
    rewrite Hi, to_u8_lor. unfold istat in *. by rewrite !to_u8_id.
  - apply c_true_false in Hc. rewrite Hc, Z.lor_0_r. exact Hi.
Qed.

(** Bits of the status register are never cleared by a tick. *)
Lemma tick_istat_mono dev k :
  dev_ok dev = true ->
  Z.testbit (istat dev) k = true ->
  Z.testbit (istat (fst (mm67_tick dev))) k = true.
Proof. intros H Hk. rewrite tick_istat by done. rewrite Z.lor_spec, Hk. reflexivity. Qed.

(** The tick changes neither the interrupt line nor the year register
    selection. *)
Lemma tick_irq dev : irq (nvr (fst (mm67_tick dev))) = irq (nvr dev).
Proof. rewrite mm67_tick_eq. reflexivity. Qed.

Lemma dev_ok_set_ictrl dev mask : dev_ok dev = true -> dev_ok (set_ictrl dev mask) = true.
Proof.
  intros H. apply dev_ok_with_regs; [done| |].
  - rewrite length_reg_set. by apply dev_ok_length.
  - apply forallb_is_u8_reg_set. by apply dev_ok_bytes.
Qed.

(** ** Runs *)

Lemma run_tick_cons dev evs :
  run dev (EvTick :: evs) =
    (fst (run (fst (mm67_tick dev)) evs),
     snd (mm67_tick dev) ++ snd (run (fst (mm67_tick dev)) evs)).
Proof.
  cbn [run]. destruct (mm67_tick dev) as [d p]. cbn [fst snd].
  destruct (run d evs) as [d' q]. reflexivity.
Qed.

(** ** Port writes, case by case *)

Lemma port_reg_range port : 0 <= port_reg port < 32.
Proof.
  unfold port_reg, to_u8.
  assert (0 <= Z.land (port - 0x300) 0x1f < 32) as H.
  { change 0x1f with (Z.ones 5). rewrite Z.land_ones by lia.
    apply Z.mod_pos_bound. lia. }
  rewrite Z.mod_small; lia.
Qed.

Lemma mm67_write_cases port val dev now :
  let reg := port_reg port in
  let r := regs (nvr dev) in
  (reg = MM67_RSTCTR
   /\ mm67_write port val dev now
      = with_regs dev (reg_set (reg_set r MM67_MSEC 0) MM67_HUNTEN 0))
  \/ (reg = MM67_RSTRAM /\ mm67_write port val dev now = mm67_reset dev now)
  \/ (reg = MM67_GOCMD /\ mm67_write port val dev now = mm67_start dev now)
  \/ (reg = MM67_ISTAT
      /\ mm67_write port val dev now = with_regs dev (reg_set r MM67_ISTAT 0))
  \/ (0 <= reg < 32 /\ reg <> MM67_RSTCTR /\ reg <> MM67_RSTRAM
      /\ reg <> MM67_GOCMD /\ reg <> MM67_ISTAT
      /\ mm67_write port val dev now = with_regs dev (reg_set r reg val)).
Proof.
  cbv zeta. pose proof (port_reg_range port) as Hr. unfold mm67_write.
  destruct (Z.leb_spec MM67_REGS (port_reg port)) as [Hge|_];
    [unfold MM67_REGS in Hge; lia|].
  destruct (Z.eqb_spec (port_reg port) MM67_RSTCTR) as [->|N1]; [by left|].
  destruct (Z.eqb_spec (port_reg port) MM67_RSTRAM) as [->|N2]; [right; by left|].
  destruct (Z.eqb_spec (port_reg port) MM67_GOCMD) as [->|N3];
    [right; right; by left|].
  destruct (Z.eqb_spec (port_reg port) MM67_ISTAT) as [E|N4].
  { right; right; right; left. by rewrite E. }
  do 4 right.
  destruct (Z.eqb_spec (port_reg port) MM67_ICTRL);
    repeat split; first [assumption | lia | reflexivity].
Qed.

Lemma reg_get_set r i j v :
  0 <= i -> 0 <= j -> (Z.to_nat i < length r)%nat ->
  reg_get (reg_set r i v) j = if i =? j then to_u8 v else reg_get r j.
Proof.
  intros Hi Hj Hl. destruct (Z.eqb_spec i j) as [->|N].
  - by apply reg_get_set_eq.
  - apply reg_get_set_ne. lia.
Qed.

(** [mm67_reset] on a well-formed device: all 32 registers are cleared
    before the clock is seeded. *)
Lemma mm67_reset_eq dev now :
  dev_ok dev = true ->
  mm67_reset dev now = mm67_time_set (with_regs dev (replicate 32 0)) now.
Proof. intros H. open_dev dev H. reflexivity. Qed.

Lemma dev_ok_zeroed dev :
  dev_ok dev = true -> dev_ok (with_regs dev (replicate 32 0)) = true.
Proof. intros H. by apply dev_ok_with_regs. Qed.

Lemma dev_ok_time_set dev now :
  dev_ok dev = true -> dev_ok (mm67_time_set dev now) = true.
Proof.
  intros H. unfold mm67_time_set. rewrite (dev_ok_year_reg dev H).
  change (0 <=? MM67_AL_DOM) with true. cbv iota zeta.
  apply dev_ok_with_regs; [done| |].
  - rewrite !length_reg_set. by apply dev_ok_length.
  - repeat apply forallb_is_u8_reg_set. by apply dev_ok_bytes.
Qed.

(** Every port write keeps the device well formed. *)
Lemma dev_ok_write port val dev now :
  dev_ok dev = true -> dev_ok (mm67_write port val dev now) = true.
Proof.
  intros H.
  destruct (mm67_write_cases port val dev now)
    as [[_ ->]|[[_ ->]|[[_ ->]|[[_ ->]|(_&_&_&_&_& ->)]]]].
  - apply dev_ok_with_regs; [done| |].
    + rewrite !length_reg_set. by apply dev_ok_length.
    + repeat apply forallb_is_u8_reg_set. by apply dev_ok_bytes.
  - rewrite mm67_reset_eq by done. apply dev_ok_time_set. by apply dev_ok_zeroed.
  - by apply dev_ok_time_set.
  - apply dev_ok_with_regs; [done| |].
    + rewrite !length_reg_set. by apply dev_ok_length.
    + repeat apply forallb_is_u8_reg_set. by apply dev_ok_bytes.
  - apply dev_ok_with_regs; [done| |].
    + rewrite !length_reg_set. by apply dev_ok_length.
    + repeat apply forallb_is_u8_reg_set. by apply dev_ok_bytes.
Qed.

Lemma istat_time_set dev now :
  dev_ok dev = true -> istat (mm67_time_set dev now) = istat dev.
Proof.
  intros H. unfold mm67_time_set. rewrite (dev_ok_year_reg dev H).
  change (0 <=? MM67_AL_DOM) with true. cbv iota zeta.
  unfold istat. cbn [with_regs regs nvr].
  rewrite !reg_get_set_ne by (cbv; lia). reflexivity.
Qed.

(** A cleared status register stays cleared across any port write. *)
Lemma istat_zero_write port val dev now :
  dev_ok dev = true -> istat dev = 0 -> istat (mm67_write port val dev now) = 0.
Proof.
  intros H Hz. pose proof (dev_ok_length dev H) as Hl.
  destruct (mm67_write_cases port val dev now)
    as [[_ ->]|[[_ ->]|[[_ ->]|[[_ ->]|(Hr&_&_&_&N& ->)]]]].
  - unfold istat in *. cbn [with_regs regs nvr].
    by rewrite !reg_get_set_ne by (cbv; lia).
  - rewrite mm67_reset_eq by done. rewrite istat_time_set by (by apply dev_ok_zeroed).
    reflexivity.
  - unfold mm67_start. by rewrite istat_time_set.
  - unfold istat. cbn [with_regs regs nvr].
    rewrite reg_get_set_eq by (rewrite Hl; cbv; lia). reflexivity.
  - unfold istat in *. cbn [with_regs regs nvr].
    rewrite reg_get_set_ne; [done|]. unfold MM67_ISTAT in *. lia.
Qed.

Lemma dev_ok_run dev evs : dev_ok dev = true -> dev_ok (fst (run dev evs)) = true.
Proof.
  revert dev. induction evs as [|[|port val now] evs IH]; intros dev H.
  - done.
  - rewrite run_tick_cons. cbn [fst]. apply IH. by apply dev_ok_tick.
  - cbn [run]. apply IH. by apply dev_ok_write.
Qed.

Lemma istat_zero_run dev evs :
  dev_ok dev = true -> istat dev = 0 -> no_event dev evs = true ->
  istat (fst (run dev evs)) = 0.
Proof.
  revert dev. induction evs as [|[|port val now] evs IH]; intros dev H Hz Hq.
  - done.
  - rewrite run_tick_cons. cbn [fst]. cbn [no_event] in Hq.
    apply andb_prop in Hq as [Hf Hq]. apply Z.eqb_eq in Hf.
    apply IH; [by apply dev_ok_tick| |done].
    rewrite tick_istat by done. by rewrite Hf, Hz.
  - cbn [run]. cbn [no_event] in Hq.
    apply IH; [by apply dev_ok_write| by apply istat_zero_write |done].
Qed.

Lemma mm67_read_reg port dev :
  mm67_read port dev = reg_get (regs (nvr dev)) (port_reg port).
Proof.
  unfold mm67_read. pose proof (port_reg_range port).
  destruct (Z.ltb_spec (port_reg port) MM67_REGS) as [_|Hge]; [done|].
  unfold MM67_REGS in Hge. lia.
Qed.

(** ** Bytes in BCD *)

Ltac byte_fact P x Hu :=
  let B := fresh "B" in
  pose proof (byte_forall P eq_refl x Hu) as B; cbv beta in B.

Lemma implb_elim (a b : bool) : implb a b = true -> a = true -> b = true.
Proof. by destruct a, b. Qed.

Lemma sec_step_valid x :
  valid_bcd x = true ->
  valid_bcd (if RTC_BCD 60 <=? next_bcd x then to_u8 (RTC_BCD 0) else next_bcd x) = true.
Proof.
  intros H. pose proof (valid_bcd_is_u8 x H) as Hu.
  byte_fact (fun x => implb (valid_bcd x)
    (valid_bcd (if RTC_BCD 60 <=? next_bcd x then to_u8 (RTC_BCD 0) else next_bcd x))) x Hu.
  by apply (implb_elim _ _ B).
Qed.

Lemma hour_step_valid x :
  valid_bcd x = true ->
  valid_bcd (if RTC_BCD 24 <=? next_bcd x then to_u8 (RTC_BCD 0) else next_bcd x) = true.
Proof.
  intros H. pose proof (valid_bcd_is_u8 x H) as Hu.
  byte_fact (fun x => implb (valid_bcd x)
    (valid_bcd (if RTC_BCD 24 <=? next_bcd x then to_u8 (RTC_BCD 0) else next_bcd x))) x Hu.
  by apply (implb_elim _ _ B).
Qed.

Lemma dow_step_valid x :
  valid_bcd x = true ->
  valid_bcd (if RTC_BCD 7 <? next_bcd x then to_u8 (RTC_BCD 1) else next_bcd x) = true.
Proof.
  intros H. pose proof (valid_bcd_is_u8 x H) as Hu.
  byte_fact (fun x => implb (valid_bcd x)
    (valid_bcd (if RTC_BCD 7 <? next_bcd x then to_u8 (RTC_BCD 1) else next_bcd x))) x Hu.
  by apply (implb_elim _ _ B).
Qed.

Lemma mon_step_valid x :
  month_ok x = true ->
  month_ok (if RTC_BCD 12 <? next_bcd x then to_u8 (RTC_BCD 1) else next_bcd x) = true.
Proof.
  intros H. assert (is_u8 x = true) as Hu.
  { apply valid_bcd_is_u8. unfold month_ok in H. by split_andb. }
  byte_fact (fun x => implb (month_ok x)
    (month_ok (if RTC_BCD 12 <? next_bcd x then to_u8 (RTC_BCD 1) else next_bcd x))) x Hu.
  by apply (implb_elim _ _ B).
Qed.

Lemma year_step_bcd x :
  valid_bcd x = true ->
  valid_bcd (if RTC_BCD 100 <=? next_bcd x then to_u8 (RTC_BCD 0) else next_bcd x) = true.
Proof.
  intros H. pose proof (valid_bcd_is_u8 x H) as Hu.
  byte_fact (fun x => implb (valid_bcd x)
    (valid_bcd (if RTC_BCD 100 <=? next_bcd x then to_u8 (RTC_BCD 0) else next_bcd x))) x Hu.
  by apply (implb_elim _ _ B).
Qed.

(** The successor of a valid BCD day is valid BCD unless it decodes to
    100. *)
Lemma dom_next_valid x :
  valid_bcd x = true ->
  RTC_DCB (next_bcd x) <= 99 -> valid_bcd (next_bcd x) = true.
Proof.
  intros H Hle. pose proof (valid_bcd_is_u8 x H) as Hu.
  byte_fact (fun x => implb (valid_bcd x && (RTC_DCB (next_bcd x) <=? 99))
                            (valid_bcd (next_bcd x))) x Hu.
  apply (implb_elim _ _ B). rewrite H. cbn [andb]. lia.
Qed.

(** Within its documented domain the days-in-month helper answers at most
    31. *)
Lemma nvr_get_days_le m y : 1 <= m <= 12 -> nvr_get_days m y <= 31.
Proof.
  intros H.
  assert (m = 1 \/ m = 2 \/ m = 3 \/ m = 4 \/ m = 5 \/ m = 6 \/ m = 7
          \/ m = 8 \/ m = 9 \/ m = 10 \/ m = 11 \/ m = 12) as Hm by lia.
  repeat (destruct Hm as [->|Hm]); try subst m; cbn [nvr_get_days];
    try destruct (nvr_is_leap y); lia.
Qed.

Lemma dom_step_valid x m y :
  valid_bcd x = true -> month_ok m = true ->
  valid_bcd (if nvr_get_days (RTC_DCB m) y <? RTC_DCB (next_bcd x)
             then to_u8 (RTC_BCD 1) else next_bcd x) = true.
Proof.
  intros H Hm. unfold month_ok in Hm. split_andb.
  pose proof (nvr_get_days_le (RTC_DCB m) y ltac:(lia)).
  destruct (Z.ltb_spec (nvr_get_days (RTC_DCB m) y) (RTC_DCB (next_bcd x))).
  - reflexivity.
  - apply dom_next_valid; [done|lia].
Qed.

(** The tick keeps the time fields BCD. *)
Lemma time_ok_tick dev :
  dev_ok dev = true -> time_ok dev = true -> time_ok (fst (mm67_tick dev)) = true.
Proof.
  intros H Ht. unfold time_ok. cbv zeta. rewrite !tick_reg by (cbv; lia).
  open_dev dev H. unfold time_ok in Ht. regs_cbv_in Ht. split_andb. clear H.
  pose proof (sec_step_valid r2 ltac:(done)) as P2.
  pose proof (sec_step_valid r3 ltac:(done)) as P3.
  pose proof (hour_step_valid r4 ltac:(done)) as P4.
  pose proof (dow_step_valid r5 ltac:(done)) as P5.
  pose proof (dom_step_valid r6 r7 (RTC_DCB r14 + 80 + 1900)
                ltac:(done) ltac:(done)) as P6.
  pose proof (mon_step_valid r7 ltac:(done)) as P7.
  pose proof (year_step_bcd r14 ltac:(done)) as P14.
  unfold next_bcd in P2, P3, P4, P5, P6, P7, P14.
  tick_crunch;
    repeat match goal with
    | P : context [if ?c then _ else _], E : ?c = _ |- _ => rewrite E in P
    end;
    repeat match goal with E : _ = true |- _ => rewrite E; clear E end;
    try reflexivity.
Qed.

Lemma year_step_valid y :
  valid_bcd y = true ->
  (if RTC_BCD 100 <=? next_bcd y then to_u8 (RTC_BCD 0) else next_bcd y)
  = (if y =? 0x99 then 0x00 else RTC_BCD (RTC_DCB y + 1)).
Proof.
  intros H. pose proof (valid_bcd_is_u8 y H) as Hu.
  pose proof (byte_forall
    (fun y => implb (valid_bcd y)
       ((if RTC_BCD 100 <=? next_bcd y then to_u8 (RTC_BCD 0) else next_bcd y)
        =? (if y =? 0x99 then 0x00 else RTC_BCD (RTC_DCB y + 1)))) eq_refl y Hu) as B.
  cbv beta in B. rewrite H in B. cbn [implb] in B. by apply Z.eqb_eq.
Qed.

Lemma bcd_encode_valid x :
  0 <= x <= 99 -> valid_bcd (to_u8 (RTC_BCD x)) = true.
Proof.
  intros H. assert (is_u8 x = true) as Hu by (unfold is_u8; lia).
  byte_fact (fun x => implb (x <=? 99) (valid_bcd (to_u8 (RTC_BCD x)))) x Hu.
  apply (implb_elim _ _ B). lia.
Qed.

Lemma bcd_encode_month x :
  1 <= x <= 12 -> month_ok (to_u8 (RTC_BCD x)) = true.
Proof.
  intros H. assert (is_u8 x = true) as Hu by (unfold is_u8; lia).
  byte_fact (fun x => implb ((1 <=? x) && (x <=? 12))
                            (month_ok (to_u8 (RTC_BCD x)))) x Hu.
  apply (implb_elim _ _ B). lia.
Qed.

(** Seeding from a well-formed host time makes every time field BCD. *)
Lemma time_ok_time_set dev now :
  dev_ok dev = true -> tm_ok now = true -> time_ok (mm67_time_set dev now) = true.
Proof.
  intros H Hn. open_dev dev H. destruct now as [s m h md mo y wd].
  unfold tm_ok in Hn. cbn [tm_sec tm_min tm_hour tm_mday tm_mon tm_year tm_wday] in Hn.
  split_andb.
  unfold time_ok, mm67_time_set.
  cbn [tm_sec tm_min tm_hour tm_mday tm_mon tm_year tm_wday year_reg].
  change (0 <=? 14) with true. regs_cbv.
  pose proof (Z.rem_bound_pos (y - 80) 100 ltac:(lia) ltac:(lia)).
  rewrite !bcd_encode_valid, bcd_encode_month by lia. reflexivity.
Qed.

(** An admissible write keeps the time fields BCD. *)

Ltac unfold_regs :=
  unfold MM67_MSEC, MM67_HUNTEN, MM67_SEC, MM67_MIN, MM67_HOUR, MM67_DOW,
    MM67_DOM, MM67_MON, MM67_AL_SEC, MM67_AL_MIN, MM67_AL_HOUR, MM67_AL_DOW,
    MM67_AL_DOM, MM67_AL_MON, MM67_ISTAT, MM67_ICTRL, MM67_RSTCTR, MM67_RSTRAM,
    MM67_GOCMD in *.

(** An admissible write keeps the time fields BCD. *)
Lemma time_ok_write port val dev now :
  dev_ok dev = true -> time_ok dev = true ->
  event_ok (EvWrite port val now) = true ->
  time_ok (mm67_write port val dev now) = true.
Proof.
  intros H Ht He. pose proof (dev_ok_length dev H) as Hl.
  cbn [event_ok] in He. cbv zeta in He.
  destruct (mm67_write_cases port val dev now)
    as [[E ->]|[[E ->]|[[E ->]|[[E ->]|(Hr&N1&N2&N3&N4& ->)]]]];
    cbv zeta in *.
  - unfold time_ok in *. cbn [with_regs regs nvr].
    by rewrite !reg_get_set_ne by (cbv; lia).
  - rewrite E in He. cbn in He. rewrite mm67_reset_eq by done.
    apply time_ok_time_set; [by apply dev_ok_zeroed|done].
  - rewrite E in He. cbn in He. by apply time_ok_time_set.
  - unfold time_ok in *. cbn [with_regs regs nvr].
    by rewrite !reg_get_set_ne by (cbv; lia).
  - destruct (Z.eqb_spec (port_reg port) MM67_RSTRAM); [done|].
    destruct (Z.eqb_spec (port_reg port) MM67_GOCMD); [done|].
    cbn [orb] in He. unfold is_time_reg in He.
    unfold time_ok in *. cbn [with_regs regs nvr].
    rewrite !reg_get_set by (first [lia | unfold_regs; lia | rewrite Hl; lia]).
    assert (valid_bcd val = true -> to_u8 val = val) as Hv.
    { intros Hv. apply to_u8_id. by apply valid_bcd_is_u8. }
    assert (month_ok val = true -> to_u8 val = val) as Hm.
    { unfold month_ok. intros Hm. split_andb. by apply Hv. }
    split_andb.
    repeat match goal with
    | |- context [?a =? ?b] => destruct (Z.eqb_spec a b)
    | H : context [?a =? ?b] |- _ => destruct (Z.eqb_spec a b)
    end; cbn [orb] in He;
    try (unfold_regs; lia);
    rewrite ?Hv, ?Hm by done;
    repeat match goal with E : _ = true |- _ => rewrite E; clear E end;
    reflexivity.
Qed.

(** * The claims *)

(** ** C1: events recorded on a tick *)

(** When the second rolls over and the minute interrupt is enabled, the
    flags the update phase records do not contain the second event: the
    assignment [f = MM67INT_MIN] replaces [f = MM67INT_SEC]. *)
Lemma minute_event_overwrites_second dev :
  dev_ok dev = true ->
  sec_rolls dev = true ->
  c_true (Z.land (reg_get (regs (nvr dev)) MM67_ICTRL) MM67INT_MIN) = true ->
  Z.testbit (snd (mm67_tick_update dev)) 2 = false.
Proof.
  intros H Hr Hm. open_dev dev H. regs_cbv_in Hr. regs_cbv_in Hm. clear H.
  tick_crunch; try congruence; rewrite Hm; split_all_ifs; reflexivity.
Qed.

(** C1, evaluated on the code at 12:34:59 with the second and the minute
    interrupt both enabled and a clear status register: the second rolls
    over to 0 and the minute goes from 0x34 to 0x35, yet the tick records
    the minute event only; the status register ends as 0x08 and the second
    bit 0x04 stays clear. *)
Theorem second_event_lost_on_minute_rollover :
  dev_ok dev_12_34_59 = true
  /\ sec_rolls dev_12_34_59 = true
  /\ Z.land (reg_get (regs (nvr dev_12_34_59)) MM67_ICTRL) MM67INT_SEC = MM67INT_SEC
  /\ Z.land (reg_get (regs (nvr dev_12_34_59)) MM67_ICTRL) MM67INT_MIN = MM67INT_MIN
  /\ istat dev_12_34_59 = 0x00
  /\ reg_get (regs (nvr (fst (mm67_tick dev_12_34_59)))) MM67_SEC = 0x00
  /\ reg_get (regs (nvr (fst (mm67_tick dev_12_34_59)))) MM67_MIN = 0x35
  /\ snd (mm67_tick_update dev_12_34_59) = MM67INT_MIN
  /\ istat (fst (mm67_tick dev_12_34_59)) = MM67INT_MIN
  /\ Z.land (istat (fst (mm67_tick dev_12_34_59))) MM67INT_SEC = 0.
Proof. vm_compute. repeat split. Qed.

(** ** C2: the alarm with every field don't-care *)

(** C2 fails on the tick that wraps the month from 12 to 1: the year lives
    in the alarm day-of-month register, the tick resets it to 0 there, and
    the comparison that follows finds neither the sentinel nor the day of
    the month in it.  All alarm registers hold 0xc0, every interrupt is
    enabled, and no compare event is recorded. *)
Lemma dontcare_alarm_year_rollover_cex :
  dev_ok dev_alarm_any_dec31 = true
  /\ alarm_all_dontcare dev_alarm_any_dec31 = true
  /\ reg_get (regs (nvr (fst (mm67_tick dev_alarm_any_dec31)))) MM67_AL_DOM = 0x00
  /\ Z.testbit (snd (mm67_tick_update dev_alarm_any_dec31)) 0 = false
  /\ Z.testbit (istat (fst (mm67_tick dev_alarm_any_dec31))) 0 = false.
Proof. vm_compute. repeat split. Qed.

(** C2 (amended): in every state in which all alarm fields hold the
    don't-care sentinel, every tick that does not wrap the month from 12
    to 1 records a compare event and sets the compare bit of the interrupt
    status register, whatever the interrupt control mask is. *)
Theorem dontcare_alarm_compare dev mask :
  dev_ok dev = true ->
  alarm_all_dontcare dev = true ->
  mon_rolls dev = false ->
  Z.testbit (snd (mm67_tick_update (set_ictrl dev mask))) 0 = true
  /\ Z.testbit (istat (fst (mm67_tick (set_ictrl dev mask)))) 0 = true.
Proof.
  intros H Ha Hr.
  assert (Z.testbit (snd (mm67_tick_update (set_ictrl dev mask))) 0 = true) as Hf.
  { open_dev dev H. unfold alarm_all_dontcare, dontcare in Ha.
    cbn [forallb] in Ha. regs_cbv_in Ha. regs_cbv_in Hr. split_andb.
    clear H. unfold set_ictrl. tick_crunch.
    all: repeat match goal with E : (_ =? _) = true |- _ => rewrite E; clear E end.
    all: rewrite ?orb_true_r; cbn [andb].
    all: try (rewrite Z.lor_spec; apply orb_true_r).
    all: repeat match goal with E : _ = true |- _ => rewrite E in Hr; clear E end.
    all: try discriminate. }
  split; [exact Hf|].
  rewrite tick_istat by (by apply dev_ok_set_ictrl).
  rewrite Z.lor_spec, Hf. apply orb_true_r.
Qed.

Lemma dontcare_alarm_compare_witness :
  (dev_ok dev_alarm_any = true
   /\ alarm_all_dontcare dev_alarm_any = true
   /\ mon_rolls dev_alarm_any = false)
  /\ Z.testbit (snd (mm67_tick_update (set_ictrl dev_alarm_any 0x00))) 0 = true
  /\ Z.testbit (istat (fst (mm67_tick (set_ictrl dev_alarm_any 0x00)))) 0 = true.
Proof.
  split; [repeat split|].
  apply (dontcare_alarm_compare dev_alarm_any 0x00); reflexivity.
Defined.

(** ** C3: midnight *)

(** C3 fails on the last day of a month: from 31 January, 23:59:59 (all
    time fields valid BCD) the tick leaves 0x01 in the day-of-month
    register, not the BCD successor 0x32 of 0x31. *)
Lemma tick_month_end_cex :
  dev_ok dev_jan31 = true
  /\ time_ok dev_jan31 = true
  /\ reg_get (regs (nvr dev_jan31)) MM67_SEC = 0x59
  /\ reg_get (regs (nvr dev_jan31)) MM67_MIN = 0x59
  /\ reg_get (regs (nvr dev_jan31)) MM67_HOUR = 0x23
  /\ reg_get (regs (nvr dev_jan31)) MM67_DOM = 0x31
  /\ RTC_BCDINC 0x31 1 = 0x32
  /\ reg_get (regs (nvr (fst (mm67_tick dev_jan31)))) MM67_DOM = 0x01
  /\ reg_get (regs (nvr (fst (mm67_tick dev_jan31)))) MM67_DOM
     <> RTC_BCDINC (reg_get (regs (nvr dev_jan31)) MM67_DOM) 1.
Proof. vm_compute. repeat split. discriminate. Qed.

(** C3 (amended): from 23:59:59 with a valid BCD day of the month and a
    day of the week in 1..7, one tick yields 00:00:00, the day of the week
    incremented by one with 7 wrapping back to 1, and the day of the month
    incremented by one in BCD, unless the incremented day exceeds the
    number of days of the current month, in which case it is reset to 1. *)
Theorem tick_midnight dev :
  dev_ok dev = true ->
  reg_get (regs (nvr dev)) MM67_SEC = 0x59 ->
  reg_get (regs (nvr dev)) MM67_MIN = 0x59 ->
  reg_get (regs (nvr dev)) MM67_HOUR = 0x23 ->
  valid_bcd (reg_get (regs (nvr dev)) MM67_DOM) = true ->
  1 <= reg_get (regs (nvr dev)) MM67_DOW <= 7 ->
  let r' := regs (nvr (fst (mm67_tick dev))) in
  reg_get r' MM67_SEC = 0x00 /\ reg_get r' MM67_MIN = 0x00
  /\ reg_get r' MM67_HOUR = 0x00
  /\ reg_get r' MM67_DOW =
       (if reg_get (regs (nvr dev)) MM67_DOW =? 7 then 1
        else reg_get (regs (nvr dev)) MM67_DOW + 1)
  /\ reg_get r' MM67_DOM =
       (if days_this_month dev <? RTC_DCB (reg_get (regs (nvr dev)) MM67_DOM) + 1
        then 0x01
        else RTC_BCD (RTC_DCB (reg_get (regs (nvr dev)) MM67_DOM) + 1)).
Proof.
  intros H Hs Hm Hh Hd Hw. cbv zeta. rewrite !tick_reg by (cbv; lia).
  open_dev dev H.
  regs_cbv_in Hs. regs_cbv_in Hm. regs_cbv_in Hh. regs_cbv_in Hd. regs_cbv_in Hw.
  subst. destruct (next_bcd_valid _ Hd) as [N1 N2]. unfold next_bcd in N1, N2.
  assert (r5 = 1 \/ r5 = 2 \/ r5 = 3 \/ r5 = 4 \/ r5 = 5 \/ r5 = 6 \/ r5 = 7)
    as Hc by lia.
  clear H Hw.
  tick_crunch.
  all: rewrite ?N2 in *; try congruence.
  all: repeat split; try reflexivity; try assumption.
  all: destruct Hc as [->|[->|[->|[->|[->|[->| ->]]]]]];
    (reflexivity || (exfalso; vm_compute in Heqb; discriminate)).
Qed.

Lemma tick_midnight_witness :
  (dev_ok dev_jan15 = true
   /\ reg_get (regs (nvr dev_jan15)) MM67_SEC = 0x59
   /\ reg_get (regs (nvr dev_jan15)) MM67_MIN = 0x59
   /\ reg_get (regs (nvr dev_jan15)) MM67_HOUR = 0x23
   /\ valid_bcd (reg_get (regs (nvr dev_jan15)) MM67_DOM) = true
   /\ 1 <= reg_get (regs (nvr dev_jan15)) MM67_DOW <= 7)
  /\ reg_get (regs (nvr (fst (mm67_tick dev_jan15)))) MM67_SEC = 0x00
  /\ reg_get (regs (nvr (fst (mm67_tick dev_jan15)))) MM67_MIN = 0x00
  /\ reg_get (regs (nvr (fst (mm67_tick dev_jan15)))) MM67_HOUR = 0x00
  /\ reg_get (regs (nvr (fst (mm67_tick dev_jan15)))) MM67_DOW = 0x01
  /\ reg_get (regs (nvr (fst (mm67_tick dev_jan15)))) MM67_DOM = 0x16.
Proof.
  assert (1 <= reg_get (regs (nvr dev_jan15)) MM67_DOW <= 7) as Hw
    by (vm_compute; split; discriminate).
  split; [repeat split; apply Hw|].
  exact (tick_midnight dev_jan15 eq_refl eq_refl eq_refl eq_refl eq_refl Hw).
Defined.

(** ** C4: the days-in-month bound *)

(** C4: on every tick that increments the day of the month, the bound it
    is compared with is [nvr_get_days] of the binary-decoded month
    register and of the binary year, rebuilt as the decoded base-80 year
    register plus 80 plus 1900; with the year register at 0x20 (calendar
    year 2000) and the month at 02 the bound is 29, so day 28 is followed
    by day 29 in February and only day 29 by 1 March. *)
Theorem tick_days_in_month dev :
  dev_ok dev = true ->
  hour_rolls dev = true ->
  let r := regs (nvr dev) in
  let r' := regs (nvr (fst (mm67_tick dev))) in
  let bound := nvr_get_days (RTC_DCB (reg_get r MM67_MON))
                            (RTC_DCB (reg_get r MM67_AL_DOM) + 80 + 1900) in
  reg_get r' MM67_DOM =
    (if bound <? RTC_DCB (next_bcd (reg_get r MM67_DOM)) then 0x01
     else next_bcd (reg_get r MM67_DOM))
  /\ (reg_get r MM67_AL_DOM = 0x20 -> reg_get r MM67_MON = 0x02 ->
      bound = 29
      /\ (reg_get r MM67_DOM = 0x28 ->
          reg_get r' MM67_DOM = 0x29 /\ reg_get r' MM67_MON = 0x02)
      /\ (reg_get r MM67_DOM = 0x29 ->
          reg_get r' MM67_DOM = 0x01 /\ reg_get r' MM67_MON = 0x03)).
Proof.
  intros H Hr. cbv zeta. rewrite !tick_reg by (cbv; lia).
  open_dev dev H. regs_cbv_in Hr. split_andb. clear H.
  split.
  - tick_crunch; try congruence; reflexivity.
  - regs_cbv. intros -> ->. split; [reflexivity|].
    split; intros ->; tick_crunch; try congruence; split; reflexivity.
Qed.

Lemma tick_days_in_month_witness :
  (dev_ok dev_feb28_2000 = true /\ hour_rolls dev_feb28_2000 = true)
  /\ days_this_month dev_feb28_2000 = 29
  /\ reg_get (regs (nvr (fst (mm67_tick dev_feb28_2000)))) MM67_DOM = 0x29
  /\ reg_get (regs (nvr (fst (mm67_tick dev_feb28_2000)))) MM67_MON = 0x02.
Proof.
  split; [repeat split|].
  destruct (tick_days_in_month dev_feb28_2000 eq_refl eq_refl) as [_ H].
  destruct (H eq_refl eq_refl) as (Hb & H28 & _).
  destruct (H28 eq_refl) as [Hd Hm].
  exact (conj Hb (conj Hd Hm)).
Defined.

(** ** C5: the year register on the month wrap *)

(** C5: on the tick where the month register wraps from 12 to 1, the year
    register is incremented in BCD, and from 0x99 it rolls over to
    0x00. *)
Theorem tick_year_wrap dev :
  dev_ok dev = true ->
  dom_rolls dev = true ->
  reg_get (regs (nvr dev)) MM67_MON = 0x12 ->
  valid_bcd (reg_get (regs (nvr dev)) MM67_AL_DOM) = true ->
  let r' := regs (nvr (fst (mm67_tick dev))) in
  reg_get r' MM67_MON = 0x01
  /\ reg_get r' MM67_AL_DOM =
       (if reg_get (regs (nvr dev)) MM67_AL_DOM =? 0x99 then 0x00
        else RTC_BCD (RTC_DCB (reg_get (regs (nvr dev)) MM67_AL_DOM) + 1)).
Proof.
  intros H Hr Hm Hy. cbv zeta. rewrite !tick_reg by (cbv; lia).
  open_dev dev H. regs_cbv_in Hr. regs_cbv_in Hm. regs_cbv_in Hy. subst.
  pose proof (year_step_valid _ Hy) as Y. unfold next_bcd in Y.
  split_andb. clear H.
  regs_cbv. rewrite <- Y.
  tick_crunch; try congruence; split; reflexivity.
Qed.

Lemma tick_year_wrap_witness :
  (dev_ok dev_dec31_99 = true
   /\ dom_rolls dev_dec31_99 = true
   /\ reg_get (regs (nvr dev_dec31_99)) MM67_MON = 0x12
   /\ reg_get (regs (nvr dev_dec31_99)) MM67_AL_DOM = 0x99)
  /\ reg_get (regs (nvr (fst (mm67_tick dev_dec31_99)))) MM67_MON = 0x01
  /\ reg_get (regs (nvr (fst (mm67_tick dev_dec31_99)))) MM67_AL_DOM = 0x00.
Proof.
  split; [repeat split|].
  exact (tick_year_wrap dev_dec31_99 eq_refl eq_refl eq_refl eq_refl).
Defined.

(** ** C6: the time fields stay BCD *)

(** C6 fails after a port write: register writes are stored verbatim, so
    from the initial state a write of 0xff to the seconds register (port
    0x302) is read back as 0xff, which is not BCD. *)
Lemma bcd_invariant_write_cex :
  tm_ok host_time = true
  /\ port_reg 0x302 = MM67_SEC
  /\ mm67_read 0x302
       (fst (run (leading_edge_rtc_init host_time) [EvWrite 0x302 0xff host_time]))
     = 0xff
  /\ valid_bcd
       (mm67_read 0x302
          (fst (run (leading_edge_rtc_init host_time) [EvWrite 0x302 0xff host_time])))
     = false.
Proof. vm_compute. repeat split. Qed.

Lemma time_ok_run dev evs :
  dev_ok dev = true -> time_ok dev = true -> forallb event_ok evs = true ->
  time_ok (fst (run dev evs)) = true.
Proof.
  revert dev. induction evs as [|[|port val now] evs IH]; intros dev H Ht He.
  - done.
  - rewrite run_tick_cons. cbn [fst]. cbn [forallb] in He.
    apply andb_prop in He as [_ He].
    apply IH; [by apply dev_ok_tick|by apply time_ok_tick|done].
  - cbn [run]. cbn [forallb] in He. apply andb_prop in He as [Hw He].
    apply IH; [by apply dev_ok_write|by apply time_ok_write|done].
Qed.

Lemma time_ok_read port dev :
  time_ok dev = true -> is_time_reg (port_reg port) = true ->
  valid_bcd (mm67_read port dev) = true.
Proof.
  intros Ht Hp. rewrite mm67_read_reg. unfold time_ok, month_ok in Ht.
  cbv zeta in Ht. split_andb. unfold is_time_reg in Hp.
  repeat match goal with
  | H : _ || _ = true |- _ => apply orb_prop in H as [H|H]
  end;
  apply Z.eqb_eq in Hp; by rewrite Hp.
Qed.

(** C6 (amended): in every state reached from initialization (seeded from
    a well-formed host time) by ticks and by port writes that put only
    valid BCD into the time-field registers (a month 01..12 into the month
    register) and reseed only from well-formed host times, every time
    field register (seconds, minutes, hours, day of the week, day of the
    month, month, year) reads as valid BCD. *)
Theorem time_fields_stay_bcd now0 evs port :
  tm_ok now0 = true ->
  forallb event_ok evs = true ->
  is_time_reg (port_reg port) = true ->
  valid_bcd (mm67_read port (fst (run (leading_edge_rtc_init now0) evs))) = true.
Proof.
  intros Hn He Hp. apply time_ok_read; [|done].
  assert (dev_ok leading_edge_rtc_alloc = true) as Ha by reflexivity.
  unfold leading_edge_rtc_init. rewrite mm67_reset_eq by done.
  apply time_ok_run; [| |done].
  - apply dev_ok_time_set. by apply dev_ok_zeroed.
  - apply time_ok_time_set; [by apply dev_ok_zeroed|done].
Qed.

Lemma time_fields_stay_bcd_witness :
  (tm_ok host_time = true
   /\ forallb event_ok
        [EvTick; EvWrite 0x302 0x59 host_time; EvTick;
         EvWrite 0x313 0x00 host_time; EvTick] = true
   /\ is_time_reg (port_reg 0x306) = true)
  /\ valid_bcd
       (mm67_read 0x306
          (fst (run (leading_edge_rtc_init host_time)
                  [EvTick; EvWrite 0x302 0x59 host_time; EvTick;
                   EvWrite 0x313 0x00 host_time; EvTick]))) = true.
Proof.
  split; [repeat split|].
  apply (time_fields_stay_bcd host_time
           [EvTick; EvWrite 0x302 0x59 host_time; EvTick;
            EvWrite 0x313 0x00 host_time; EvTick] 0x306); reflexivity.
Defined.

(** ** C7: write-to-clear of the interrupt status register *)

(** C7: a port write to the interrupt status register (index 16) stores
    0x00 there whatever value is written and whatever the register held,
    and the register reads 0x00 from then on, across any further port
    writes and ticks, as long as no tick records an event. *)
Theorem istat_write_clears dev port val now evs :
  dev_ok dev = true ->
  port_reg port = MM67_ISTAT ->
  no_event (mm67_write port val dev now) evs = true ->
  reg_get (regs (nvr (mm67_write port val dev now))) MM67_ISTAT = 0x00
  /\ mm67_read port (mm67_write port val dev now) = 0x00
  /\ mm67_read port (fst (run (mm67_write port val dev now) evs)) = 0x00.
Proof.
  intros H Hp Hq.
  assert (istat (mm67_write port val dev now) = 0) as Hz.
  { destruct (mm67_write_cases port val dev now)
      as [[E _]|[[E _]|[[E _]|[[_ ->]|(_&_&_&_&N&_)]]]];
      try (cbv zeta in *; rewrite Hp in *; discriminate); [|done].
    unfold istat. cbn [with_regs regs nvr].
    rewrite reg_get_set_eq by (rewrite (dev_ok_length dev H); cbv; lia).
    reflexivity. }
  rewrite !mm67_read_reg, Hp. repeat split; [exact Hz|exact Hz|].
  apply istat_zero_run; [by apply dev_ok_write|done|done].
Qed.

Lemma istat_write_clears_witness :
  (dev_ok dev_quiet = true
   /\ istat dev_quiet = 0xff
   /\ port_reg 0x310 = MM67_ISTAT
   /\ no_event (mm67_write 0x310 0xff dev_quiet host_time)
        [EvTick; EvWrite 0x311 0x00 host_time; EvTick] = true)
  /\ reg_get (regs (nvr (mm67_write 0x310 0xff dev_quiet host_time))) MM67_ISTAT = 0x00
  /\ mm67_read 0x310 (mm67_write 0x310 0xff dev_quiet host_time) = 0x00
  /\ mm67_read 0x310
       (fst (run (mm67_write 0x310 0xff dev_quiet host_time)
               [EvTick; EvWrite 0x311 0x00 host_time; EvTick])) = 0x00.
Proof.
  split; [repeat split|].
  apply (istat_write_clears dev_quiet 0x310 0xff host_time
           [EvTick; EvWrite 0x311 0x00 host_time; EvTick]); reflexivity.
Defined.

(** ** C8: the reset-counters command *)

(** C8: a port write to the reset-counters register (index 18) zeroes the
    two sub-second registers (0 and 1) and leaves the other thirty
    registers, and the rest of the device, unchanged, whatever value is
    written. *)
Theorem write_rstctr_frame dev port val now :
  length (regs (nvr dev)) = 32%nat ->
  port_reg port = MM67_RSTCTR ->
  let dev' := mm67_write port val dev now in
  reg_get (regs (nvr dev')) MM67_MSEC = 0
  /\ reg_get (regs (nvr dev')) MM67_HUNTEN = 0
  /\ (forall i, 2 <= i < 32 ->
        reg_get (regs (nvr dev')) i = reg_get (regs (nvr dev)) i)
  /\ length (regs (nvr dev')) = 32%nat
  /\ nvr_size (nvr dev') = nvr_size (nvr dev)
  /\ irq (nvr dev') = irq (nvr dev)
  /\ year_reg dev' = year_reg dev.
Proof.
  intros Hl Hp. unfold mm67_write. rewrite Hp.
  change (MM67_REGS <=? MM67_RSTCTR) with false.
  change (MM67_RSTCTR =? MM67_RSTCTR) with true. cbv iota zeta.
  cbn [with_regs regs nvr nvr_size irq year_reg].
  repeat split.
  - rewrite reg_get_set_ne by (cbv; lia). apply reg_get_set_eq. rewrite Hl. cbv; lia.
  - apply reg_get_set_eq. rewrite length_reg_set, Hl. cbv; lia.
  - intros i Hi. rewrite !reg_get_set_ne; [done| |]; unfold MM67_MSEC, MM67_HUNTEN; lia.
  - by rewrite !length_reg_set.
Qed.

Lemma write_rstctr_frame_witness :
  (length (regs (nvr dev_counting)) = 32%nat /\ port_reg 0x312 = MM67_RSTCTR)
  /\ regs (nvr dev_counting) = map Z.of_nat (seq 1 32)
  /\ reg_get (regs (nvr (mm67_write 0x312 0xff dev_counting host_time))) MM67_MSEC = 0
  /\ reg_get (regs (nvr (mm67_write 0x312 0xff dev_counting host_time))) MM67_HUNTEN = 0
  /\ reg_get (regs (nvr (mm67_write 0x312 0xff dev_counting host_time))) MM67_TEST
     = reg_get (regs (nvr dev_counting)) MM67_TEST.
Proof.
  split; [repeat split|]. split; [reflexivity|].
  destruct (write_rstctr_frame dev_counting 0x312 0xff host_time eq_refl eq_refl)
    as (H0 & H1 & Hrest & _).
  refine (conj H0 (conj H1 (Hrest MM67_TEST _))). unfold MM67_TEST. lia.
Defined.

(** ** C9: the alarm fields the tick compares *)

(** C9: the compare event depends on exactly the alarm seconds, minutes,
    hours, day-of-month and month registers (10, 11, 12, 14, 15).  Writing
    any value to the alarm day-of-week register (13) changes neither the
    flags a tick records nor the interrupt it raises; the compare bit of
    the flags is the conjunction of the five [mm67_chkalrm] tests on the
    updated registers; and since register 14 is the year register, a
    compare event with that register not marked don't-care means that the
    day-of-month byte equals the year byte. *)
Theorem alarm_consults_five_fields dev v :
  dev_ok dev = true ->
  let r' := fst (mm67_tick_update dev) in
  let f := snd (mm67_tick_update dev) in
  snd (mm67_tick_update (set_al_dow dev v)) = f
  /\ snd (mm67_tick (set_al_dow dev v)) = snd (mm67_tick dev)
  /\ Z.testbit f 0 =
       mm67_chkalrm r' MM67_AL_SEC && mm67_chkalrm r' MM67_AL_MIN
       && mm67_chkalrm r' MM67_AL_HOUR && mm67_chkalrm r' MM67_AL_DOM
       && mm67_chkalrm r' MM67_AL_MON
  /\ (Z.testbit f 0 = true ->
      dontcare (reg_get r' MM67_AL_DOM) = false ->
      reg_get r' MM67_DOM = reg_get r' (year_reg dev)).
Proof.
  intros H. cbv zeta.
  assert (snd (mm67_tick_update (set_al_dow dev v)) = snd (mm67_tick_update dev)) as E1.
  { open_dev dev H. clear H. unfold set_al_dow. tick_crunch; reflexivity. }
  assert (Z.testbit (snd (mm67_tick_update dev)) 0 =
       mm67_chkalrm (fst (mm67_tick_update dev)) MM67_AL_SEC
       && mm67_chkalrm (fst (mm67_tick_update dev)) MM67_AL_MIN
       && mm67_chkalrm (fst (mm67_tick_update dev)) MM67_AL_HOUR
       && mm67_chkalrm (fst (mm67_tick_update dev)) MM67_AL_DOM
       && mm67_chkalrm (fst (mm67_tick_update dev)) MM67_AL_MON) as E3.
  { open_dev dev H. clear H E1. tick_crunch.
    all: match goal with
         | |- Z.testbit (if ?c then _ else _) 0 = ?d => change d with c; destruct c
         end.
    all: rewrite ?Z.lor_spec; split_all_ifs; reflexivity. }
  split; [exact E1|]. split.
  - rewrite !mm67_tick_eq. cbn [snd]. rewrite E1. reflexivity.
  - split; [exact E3|]. rewrite E3. intros Hc Hd. split_andb.
    rewrite (dev_ok_year_reg dev H).
    match goal with
    | Hx : mm67_chkalrm _ MM67_AL_DOM = true |- _ =>
        unfold mm67_chkalrm in Hx;
        fold (dontcare (reg_get (fst (mm67_tick_update dev)) MM67_AL_DOM)) in Hx;
        rewrite Hd, orb_false_r in Hx; apply Z.eqb_eq in Hx; exact Hx
    end.
Qed.

Lemma alarm_consults_five_fields_witness :
  dev_ok dev_alarm_any = true
  /\ snd (mm67_tick_update (set_al_dow dev_alarm_any 0x00))
     = snd (mm67_tick_update dev_alarm_any)
  /\ snd (mm67_tick (set_al_dow dev_alarm_any 0x00)) = snd (mm67_tick dev_alarm_any)
  /\ Z.testbit (snd (mm67_tick_update dev_alarm_any)) 0 = true.
Proof.
  split; [reflexivity|].
  destruct (alarm_consults_five_fields dev_alarm_any 0x00 eq_refl)
    as (H1 & H2 & H3 & _).
  exact (conj H1 (conj H2 H3)).
Defined.

(** ** C10: no interrupt line configured *)

(** C10: with the interrupt line at its initial -1, no sequence of ticks
    ever calls [picint], from any state; the line stays -1, every status
    bit that is set stays set, and each tick ORs the flags it recorded
    into the interrupt status register. *)
Theorem unconfigured_irq_never_raised dev n :
  dev_ok dev = true ->
  irq (nvr dev) = -1 ->
  snd (run dev (ticks n)) = []
  /\ irq (nvr (fst (run dev (ticks n)))) = -1
  /\ (forall k, Z.testbit (istat dev) k = true ->
                Z.testbit (istat (fst (run dev (ticks n)))) k = true)
  /\ snd (mm67_tick dev) = []
  /\ istat (fst (mm67_tick dev)) = Z.lor (istat dev) (snd (mm67_tick_update dev)).
Proof.
  intros H Hi.
  assert (forall d, irq (nvr d) = -1 -> snd (mm67_tick d) = []) as Hq.
  { intros d Hd. rewrite mm67_tick_eq. cbn [snd]. rewrite Hd.
    by rewrite andb_false_r. }
  assert (snd (run dev (ticks n)) = []
          /\ irq (nvr (fst (run dev (ticks n)))) = -1
          /\ (forall k, Z.testbit (istat dev) k = true ->
                Z.testbit (istat (fst (run dev (ticks n)))) k = true)) as Hrun.
  { revert dev H Hi. induction n as [|n IH]; intros dev H Hi.
    - cbn. auto.
    - unfold ticks. cbn [replicate]. fold (ticks n). rewrite run_tick_cons.
      cbn [fst snd].
      destruct (IH (fst (mm67_tick dev))) as (I1 & I2 & I3).
      + by apply dev_ok_tick.
      + by rewrite tick_irq.
      + rewrite Hq, I1 by done. repeat split; [done|].
        intros k Hk. apply I3. by apply tick_istat_mono. }
  destruct Hrun as (R1 & R2 & R3). repeat split; auto.
  by apply tick_istat.
Qed.

Lemma unconfigured_irq_never_raised_witness :
  (dev_ok dev_12_34_59 = true /\ irq (nvr dev_12_34_59) = -1)
  /\ snd (run dev_12_34_59 (ticks 3)) = []
  /\ irq (nvr (fst (run dev_12_34_59 (ticks 3)))) = -1
  /\ snd (mm67_tick dev_12_34_59) = []
  /\ istat (fst (mm67_tick dev_12_34_59))
     = Z.lor (istat dev_12_34_59) (snd (mm67_tick_update dev_12_34_59)).
Proof.
  split; [repeat split|].
  destruct (unconfigured_irq_never_raised dev_12_34_59 3 eq_refl eq_refl)
    as (H1 & H2 & _ & H4 & H5).
  exact (conj H1 (conj H2 (conj H4 H5))).
Defined.

(** * Further properties of the clock *)

(** ** Host time and registers *)

Lemma bcd_roundtrip x : 0 <= x <= 99 -> RTC_DCB (to_u8 (RTC_BCD x)) = x.
Proof.
  intros H. assert (is_u8 x = true) as Hu by (unfold is_u8; lia).
  byte_fact (fun x => implb (x <=? 99) (RTC_DCB (to_u8 (RTC_BCD x)) =? x)) x Hu.
  apply Z.eqb_eq. apply (implb_elim _ _ B). lia.
Qed.

Lemma dcb_roundtrip x : valid_bcd x = true -> to_u8 (RTC_BCD (RTC_DCB x)) = x.
Proof.
  intros H. pose proof (valid_bcd_is_u8 x H) as Hu.
  byte_fact (fun x => implb (valid_bcd x) (to_u8 (RTC_BCD (RTC_DCB x)) =? x)) x Hu.
  apply Z.eqb_eq. by apply (implb_elim _ _ B).
Qed.

Lemma dcb_range x : valid_bcd x = true -> 0 <= RTC_DCB x <= 99.
Proof.
  intros H. pose proof (valid_bcd_is_u8 x H) as Hu.
  byte_fact (fun x => implb (valid_bcd x) ((0 <=? RTC_DCB x) && (RTC_DCB x <=? 99))) x Hu.
  pose proof (implb_elim _ _ B H). lia.
Qed.

(** Run [mm67_time_set] on an explicit register array. *)
Ltac time_set_open :=
  unfold mm67_time_set;
  cbn [tm_sec tm_min tm_hour tm_mday tm_mon tm_year tm_wday year_reg];
  change (0 <=? 14) with true; regs_cbv.

Lemma time_get_of_time_set dev t t0 :
  dev_ok dev = true ->
  tm_ok t = true ->
  tm_year t <= 179 ->
  mm67_time_get (mm67_time_set dev t) t0 = t.
Proof.
  intros H Ht Hy. open_dev dev H. destruct t as [s m h md mo y wd].
  unfold tm_ok in Ht. cbn [tm_sec tm_min tm_hour tm_mday tm_mon tm_year tm_wday] in *.
  split_andb. unfold mm67_time_get. time_set_open.
  change (0 <=? 14) with true. cbv iota.
  rewrite Z.rem_small by lia.
  rewrite !bcd_roundtrip by lia. f_equal; lia.
Qed.

(** X1: seeding the clock from a well-formed host time of the years 1980
    to 2079 and reading it back with [mm67_time_get] returns that host
    time, field by field. *)
Theorem time_set_get_roundtrip dev t t0 :
  dev_ok dev = true ->
  tm_ok t = true ->
  tm_year t <= 179 ->
  mm67_time_get (mm67_time_set dev t) t0 = t.
Proof.
  exact (time_get_of_time_set dev t t0).
Qed.

Lemma time_set_get_roundtrip_witness :
  (dev_ok dev_quiet = true /\ tm_ok host_time = true /\ tm_year host_time <= 179)
  /\ mm67_time_get (mm67_time_set dev_quiet host_time) (mk_tm 0 0 0 0 0 0 0)
     = host_time.
Proof.
  assert (tm_year host_time <= 179) as Hy by (vm_compute; discriminate).
  split; [repeat split; exact Hy|].
  exact (time_set_get_roundtrip dev_quiet host_time (mk_tm 0 0 0 0 0 0 0)
           eq_refl eq_refl Hy).
Defined.

(** X2: the year is stored modulo 100: two host times a century apart
    seed exactly the same registers, so the clock cannot tell 2080 from
    1980. *)
Theorem time_set_year_aliases dev t :
  dev_ok dev = true ->
  80 <= tm_year t ->
  mm67_time_set dev (mk_tm (tm_sec t) (tm_min t) (tm_hour t) (tm_mday t)
                           (tm_mon t) (tm_year t + 100) (tm_wday t))
  = mm67_time_set dev t.
Proof.
  intros H Hy. open_dev dev H. destruct t as [s m h md mo y wd].
  cbn [tm_sec tm_min tm_hour tm_mday tm_mon tm_year tm_wday] in *.
  time_set_open.
  replace (y + 100 - 80) with (y - 80 + 1 * 100) by lia.
  rewrite !Z.rem_mod_nonneg by lia. rewrite Z.mod_add by lia. reflexivity.
Qed.

Lemma time_set_year_aliases_witness :
  (dev_ok dev_quiet = true /\ 80 <= tm_year host_time)
  /\ mm67_time_set dev_quiet (mk_tm 30 15 10 30 9 226 5)
     = mm67_time_set dev_quiet host_time.
Proof.
  assert (80 <= tm_year host_time) as Hy by (vm_compute; discriminate).
  split; [split; [reflexivity|exact Hy]|].
  exact (time_set_year_aliases dev_quiet host_time eq_refl Hy).
Defined.

(** X3: when the time fields hold valid BCD, decoding them with
    [mm67_time_get] and seeding the clock with the result restores every
    register; only the two sub-second registers are cleared. *)
Theorem time_get_set_roundtrip dev t0 :
  dev_ok dev = true ->
  time_ok dev = true ->
  regs (nvr (mm67_time_set dev (mm67_time_get dev t0)))
  = reg_set (reg_set (regs (nvr dev)) MM67_MSEC 0) MM67_HUNTEN 0.
Proof.
  intros H Ht. pose proof (dev_ok_bytes dev H) as Hb.
  open_dev dev H. unfold time_ok, month_ok in Ht. regs_cbv_in Ht.
  cbn [regs nvr forallb] in Hb. split_andb.
  unfold mm67_time_get. cbn [year_reg]. change (0 <=? 14) with true. cbv iota.
  time_set_open.
  repeat match goal with
  | |- context [RTC_DCB ?x - 1 + 1] =>
      replace (RTC_DCB x - 1 + 1) with (RTC_DCB x) by lia
  | |- context [RTC_DCB ?x + 80 - 80] =>
      replace (RTC_DCB x + 80 - 80) with (RTC_DCB x) by lia
  end.
  pose proof (dcb_range r14 ltac:(done)).
  rewrite Z.rem_small by lia.
  rewrite !dcb_roundtrip by done. reflexivity.
Qed.

Lemma time_get_set_roundtrip_witness :
  (dev_ok dev_jan31 = true /\ time_ok dev_jan31 = true)
  /\ regs (nvr (mm67_time_set dev_jan31 (mm67_time_get dev_jan31 host_time)))
     = regs (nvr dev_jan31).
Proof.
  split; [repeat split|].
  exact (time_get_set_roundtrip dev_jan31 host_time eq_refl eq_refl).
Defined.

(** ** The tick: frame, events, calendar *)

(** Case analysis on a register index. *)
Lemma reg_index_cases i :
  0 <= i < 32 ->
  i = 0 \/ i = 1 \/ i = 2 \/ i = 3 \/ i = 4 \/ i = 5 \/ i = 6 \/ i = 7
  \/ i = 8 \/ i = 9 \/ i = 10 \/ i = 11 \/ i = 12 \/ i = 13 \/ i = 14 \/ i = 15
  \/ i = 16 \/ i = 17 \/ i = 18 \/ i = 19 \/ i = 20 \/ i = 21 \/ i = 22 \/ i = 23
  \/ i = 24 \/ i = 25 \/ i = 26 \/ i = 27 \/ i = 28 \/ i = 29 \/ i = 30 \/ i = 31.
Proof. lia. Qed.

Lemma tick_update_frame dev i :
  dev_ok dev = true -> 0 <= i < 32 -> is_time_reg i = false ->
  reg_get (fst (mm67_tick_update dev)) i = reg_get (regs (nvr dev)) i.
Proof.
  intros H Hi Ht. open_dev dev H. clear H.
  pose proof (reg_index_cases i Hi) as Hc.
  repeat (destruct Hc as [->|Hc]); try subst i; try discriminate Ht;
    tick_crunch; reflexivity.
Qed.

Lemma tick_frame_regs dev i :
  dev_ok dev = true ->
  0 <= i < 32 ->
  tick_may_change i = false ->
  reg_get (regs (nvr (fst (mm67_tick dev)))) i = reg_get (regs (nvr dev)) i.
Proof.
  intros H Hi Hc. unfold tick_may_change in Hc.
  apply orb_false_elim in Hc as [Ht Hs].
  rewrite tick_reg by (apply Z.eqb_neq in Hs; unfold MM67_ISTAT in Hs; lia).
  by apply tick_update_frame.
Qed.

(** X4: a tick leaves every register alone except the six time fields,
    the year register and the interrupt status: the sub-second registers,
    the alarm seconds to day-of-week and month registers, the interrupt
    control mask and registers 18..31 are unchanged. *)
Theorem tick_frame dev i :
  dev_ok dev = true ->
  0 <= i < 32 ->
  tick_may_change i = false ->
  reg_get (regs (nvr (fst (mm67_tick dev)))) i = reg_get (regs (nvr dev)) i.
Proof.
  exact (tick_frame_regs dev i).
Qed.

Lemma tick_frame_witness :
  (dev_ok dev_12_34_59 = true /\ 0 <= MM67_ICTRL < 32
   /\ tick_may_change MM67_ICTRL = false)
  /\ reg_get (regs (nvr (fst (mm67_tick dev_12_34_59)))) MM67_ICTRL = 0x0c.
Proof.
  assert (0 <= MM67_ICTRL < 32) as Hi by (unfold MM67_ICTRL; lia).
  split; [repeat split; apply Hi|].
  exact (tick_frame dev_12_34_59 MM67_ICTRL eq_refl Hi eq_refl).
Defined.
Lemma sec_step_cal x :
  valid_bcd x = true -> RTC_DCB x <= 59 ->
  valid_bcd (if RTC_BCD 60 <=? next_bcd x then to_u8 (RTC_BCD 0) else next_bcd x) = true
  /\ RTC_DCB (if RTC_BCD 60 <=? next_bcd x then to_u8 (RTC_BCD 0) else next_bcd x) <= 59.
Proof.
  intros H Hle. pose proof (valid_bcd_is_u8 x H) as Hu.
  byte_fact (fun x => implb (valid_bcd x && (RTC_DCB x <=? 59))
    (valid_bcd (if RTC_BCD 60 <=? next_bcd x then to_u8 (RTC_BCD 0) else next_bcd x)
     && (RTC_DCB (if RTC_BCD 60 <=? next_bcd x then to_u8 (RTC_BCD 0) else next_bcd x)
         <=? 59))) x Hu.
  assert (valid_bcd x && (RTC_DCB x <=? 59) = true) as Hp by (rewrite H; cbn [andb]; lia).
  pose proof (implb_elim _ _ B Hp) as Hq. apply andb_prop in Hq as [? ?]. split; [done|lia].
Qed.

Lemma hour_step_cal x :
  valid_bcd x = true -> RTC_DCB x <= 23 ->
  valid_bcd (if RTC_BCD 24 <=? next_bcd x then to_u8 (RTC_BCD 0) else next_bcd x) = true
  /\ RTC_DCB (if RTC_BCD 24 <=? next_bcd x then to_u8 (RTC_BCD 0) else next_bcd x) <= 23.
Proof.
  intros H Hle. pose proof (valid_bcd_is_u8 x H) as Hu.
  byte_fact (fun x => implb (valid_bcd x && (RTC_DCB x <=? 23))
    (valid_bcd (if RTC_BCD 24 <=? next_bcd x then to_u8 (RTC_BCD 0) else next_bcd x)
     && (RTC_DCB (if RTC_BCD 24 <=? next_bcd x then to_u8 (RTC_BCD 0) else next_bcd x)
         <=? 23))) x Hu.
  assert (valid_bcd x && (RTC_DCB x <=? 23) = true) as Hp by (rewrite H; cbn [andb]; lia).
  pose proof (implb_elim _ _ B Hp) as Hq. apply andb_prop in Hq as [? ?]. split; [done|lia].
Qed.

Lemma dow_step_cal x :
  1 <= x <= 7 ->
  1 <= (if RTC_BCD 7 <? next_bcd x then to_u8 (RTC_BCD 1) else next_bcd x) <= 7.
Proof.
  intros H.
  assert (x = 1 \/ x = 2 \/ x = 3 \/ x = 4 \/ x = 5 \/ x = 6 \/ x = 7) as Hc by lia.
  repeat (destruct Hc as [->|Hc]); try subst x; vm_compute; split; discriminate.
Qed.

Lemma nvr_get_days_ge m y : 1 <= m <= 12 -> 28 <= nvr_get_days m y.
Proof.
  intros H.
  assert (m = 1 \/ m = 2 \/ m = 3 \/ m = 4 \/ m = 5 \/ m = 6 \/ m = 7
          \/ m = 8 \/ m = 9 \/ m = 10 \/ m = 11 \/ m = 12) as Hm by lia.
  repeat (destruct Hm as [->|Hm]); try subst m; cbn [nvr_get_days];
    try destruct (nvr_is_leap y); lia.
Qed.

Lemma month_ok_range m : month_ok m = true -> 1 <= RTC_DCB m <= 12.
Proof. unfold month_ok. intros H. split_andb. lia. Qed.

Lemma bcd_one : to_u8 (RTC_BCD 1) = 1 /\ RTC_DCB 1 = 1 /\ valid_bcd 1 = true.
Proof. repeat split. Qed.

Lemma calendar_ok_tick dev :
  dev_ok dev = true -> calendar_ok dev = true ->
  calendar_ok (fst (mm67_tick dev)) = true.
Proof.
  intros H Ht. unfold calendar_ok, days_this_month. cbv zeta.
  assert (year_reg (fst (mm67_tick dev)) = MM67_AL_DOM) as ->
    by (rewrite mm67_tick_eq; cbn [fst with_regs year_reg]; by apply dev_ok_year_reg).
  rewrite !tick_reg by (cbv; lia).
  open_dev dev H. unfold calendar_ok in Ht. regs_cbv_in Ht. split_andb. clear H.
  destruct (sec_step_cal r2 ltac:(done) ltac:(lia)) as [P2 Q2].
  destruct (sec_step_cal r3 ltac:(done) ltac:(lia)) as [P3 Q3].
  destruct (hour_step_cal r4 ltac:(done) ltac:(lia)) as [P4 Q4].
  pose proof (dow_step_cal r5 ltac:(lia)) as P5.
  destruct (next_bcd_valid r6 ltac:(done)) as [_ N6].
  pose proof (mon_step_valid r7 ltac:(done)) as P7.
  pose proof (year_step_bcd r14 ltac:(done)) as P14.
  assert (RTC_DCB (next_bcd r6) <= 99 -> valid_bcd (next_bcd r6) = true) as V6
    by (by apply dom_next_valid).
  pose proof (month_ok_range r7 ltac:(done)) as R7.
  pose proof (nvr_get_days_le (RTC_DCB r7) (RTC_DCB r14 + 80 + 1900) R7) as L7.
  destruct bcd_one as (O1 & O2 & O3).
  unfold next_bcd in *.
  tick_crunch;
    repeat match goal with
    | P : context [if ?c then _ else _], E : ?c = _ |- _ => rewrite E in P
    end;
    rewrite ?O1, ?O2, ?O3;
    repeat match goal with |- _ && _ = true => apply andb_true_intro; split end;
    try done; try lia.
  all: try (pose proof (month_ok_range _ P7) as R7';
            pose proof (nvr_get_days_ge _ (RTC_DCB r14 + 80 + 1900) R7');
            lia).
  all: apply V6; apply Z.ltb_ge in Heqb3; lia.
Qed.

(** X7: ticks keep a calendar-valid clock calendar-valid: seconds and
    minutes stay in 00..59, the hour in 00..23, the day of the week in
    1..7, the month in 01..12, the year BCD, and the day of the month
    between 01 and the length of the current month. *)
Theorem calendar_ok_ticks dev n :
  dev_ok dev = true -> calendar_ok dev = true ->
  calendar_ok (fst (run dev (ticks n))) = true.
Proof.
  revert dev. induction n as [|n IH]; intros dev H Hc; [done|].
  unfold ticks. cbn [replicate]. fold (ticks n). rewrite run_tick_cons. cbn [fst].
  apply IH; [by apply dev_ok_tick|by apply calendar_ok_tick].
Qed.

Lemma calendar_ok_ticks_witness :
  (dev_ok dev_feb28_2000 = true /\ calendar_ok dev_feb28_2000 = true)
  /\ calendar_ok (fst (run dev_feb28_2000 (ticks 2))) = true.
Proof.
  split; [repeat split|].
  exact (calendar_ok_ticks dev_feb28_2000 2 eq_refl eq_refl).
Defined.

Lemma sec_plain_step x :
  valid_bcd x = true -> RTC_DCB x < 59 ->
  (RTC_BCD 60 <=? next_bcd x) = false /\ next_bcd x = RTC_BCD (RTC_DCB x + 1).
Proof.
  intros H Hle. pose proof (valid_bcd_is_u8 x H) as Hu.
  byte_fact (fun x => implb (valid_bcd x && (RTC_DCB x <? 59))
    (negb (RTC_BCD 60 <=? next_bcd x) && (next_bcd x =? RTC_BCD (RTC_DCB x + 1)))) x Hu.
  assert (valid_bcd x && (RTC_DCB x <? 59) = true) as Hp by (rewrite H; cbn [andb]; lia).
  pose proof (implb_elim _ _ B Hp) as Hq. apply andb_prop in Hq as [Hn He].
  apply negb_true_iff in Hn. split; [done|lia].
Qed.

Lemma tick_update_within_minute dev :
  dev_ok dev = true ->
  valid_bcd (reg_get (regs (nvr dev)) MM67_SEC) = true ->
  RTC_DCB (reg_get (regs (nvr dev)) MM67_SEC) < 59 ->
  fst (mm67_tick_update dev)
  = reg_set (regs (nvr dev)) MM67_SEC
      (RTC_BCD (RTC_DCB (reg_get (regs (nvr dev)) MM67_SEC) + 1)).
Proof.
  intros H Hv Hs. open_dev dev H. clear H. regs_cbv_in Hv. regs_cbv_in Hs.
  destruct (sec_plain_step r2 Hv Hs) as [S1 S2]. unfold next_bcd in S1, S2.
  tick_open. rewrite S1. regs_cbv.
  by rewrite <- S2, (to_u8_id _ (is_u8_to_u8 _)).
Qed.

(** X6: when the seconds register holds valid BCD below 59, a tick puts
    the BCD successor in it and changes no other register, the interrupt
    status apart. *)
Theorem tick_within_minute dev i :
  dev_ok dev = true ->
  valid_bcd (reg_get (regs (nvr dev)) MM67_SEC) = true ->
  RTC_DCB (reg_get (regs (nvr dev)) MM67_SEC) < 59 ->
  0 <= i < 32 -> i <> MM67_SEC -> i <> MM67_ISTAT ->
  reg_get (regs (nvr (fst (mm67_tick dev)))) MM67_SEC
    = RTC_BCD (RTC_DCB (reg_get (regs (nvr dev)) MM67_SEC) + 1)
  /\ reg_get (regs (nvr (fst (mm67_tick dev)))) i = reg_get (regs (nvr dev)) i.
Proof.
  intros H Hv Hs Hi N1 N2.
  rewrite !tick_reg by (unfold MM67_SEC, MM67_ISTAT in *; lia).
  rewrite tick_update_within_minute by done.
  destruct (sec_plain_step _ Hv Hs) as [_ S2]. split.
  - rewrite reg_get_set_eq by (rewrite (dev_ok_length dev H); cbv; lia).
    rewrite <- S2. apply to_u8_id, is_u8_to_u8.
  - apply reg_get_set_ne. unfold MM67_SEC in *. lia.
Qed.

Lemma tick_within_minute_witness :
  (dev_ok dev_quiet = true
   /\ valid_bcd (reg_get (regs (nvr dev_quiet)) MM67_SEC) = true
   /\ RTC_DCB (reg_get (regs (nvr dev_quiet)) MM67_SEC) < 59
   /\ 0 <= MM67_MIN < 32 /\ MM67_MIN <> MM67_SEC /\ MM67_MIN <> MM67_ISTAT)
  /\ reg_get (regs (nvr (fst (mm67_tick dev_quiet)))) MM67_SEC = 0x57
  /\ reg_get (regs (nvr (fst (mm67_tick dev_quiet)))) MM67_MIN = 0x34.
Proof.
  assert (RTC_DCB (reg_get (regs (nvr dev_quiet)) MM67_SEC) < 59) as Hs
    by (vm_compute; reflexivity).
  assert (0 <= MM67_MIN < 32) as Hi by (unfold MM67_MIN; lia).
  assert (MM67_MIN <> MM67_SEC) as N1 by discriminate.
  assert (MM67_MIN <> MM67_ISTAT) as N2 by discriminate.
  split; [repeat split; first [exact Hs | apply Hi | discriminate]|].
  exact (tick_within_minute dev_quiet MM67_MIN eq_refl eq_refl Hs Hi N1 N2).
Defined.
(** An enabled single-bit test makes that bit of the mask set. *)
Lemma c_true_land_bit x k :
  0 <= k -> c_true (Z.land x (2 ^ k)) = true -> Z.testbit x k = true.
Proof.
  intros Hk H. destruct (Z.testbit x k) eqn:E; [done|].
  assert (Z.land x (2 ^ k) = 0) as Hz.
  { apply Z.bits_inj'. intros n Hn. rewrite Z.land_spec, Z.bits_0, Z.pow2_bits_eqb by lia.
    destruct (Z.eqb_spec k n) as [->|]; [by rewrite E|apply andb_false_r]. }
  rewrite Hz in H. discriminate.
Qed.

Lemma testbit_byte_cases c n :
  is_u8 c = true -> Z.testbit c n = true ->
  n = 0 \/ n = 1 \/ n = 2 \/ n = 3 \/ n = 4 \/ n = 5 \/ n = 6 \/ n = 7.
Proof.
  intros Hc Hn. unfold is_u8 in Hc.
  assert (0 <= n) by (destruct (Z.leb_spec 0 n); [done|]; rewrite Z.testbit_neg_r in Hn by lia; discriminate).
  destruct (Z.ltb_spec n 8); [lia|].
  assert (c = 0 \/ 0 < c) as [->|Hp] by lia; [rewrite Z.bits_0 in Hn; discriminate|].
  rewrite Z.bits_above_log2 in Hn; [discriminate|lia|].
  assert (Z.log2 c < 8); [|lia]. apply Z.log2_lt_pow2; lia.
Qed.

(** X5: whatever bit a tick records in its event flags, it is never the
    tenth-of-a-second bit, and apart from the compare bit it is a bit that
    is set in the interrupt control register. *)
Theorem tick_events_are_enabled dev n :
  dev_ok dev = true ->
  Z.testbit (snd (mm67_tick_update dev)) n = true ->
  n <> 1 /\ (n <> 0 -> Z.testbit (reg_get (regs (nvr dev)) MM67_ICTRL) n = true).
Proof.
  intros H Hn.
  pose proof (testbit_byte_cases _ n (tick_update_flags_byte dev H) Hn) as Hc.
  open_dev dev H. clear H. regs_cbv.
  assert (forall k, 0 <= k -> c_true (Z.land r17 (2 ^ k)) = true -> Z.testbit r17 k = true)
    as Hb by (intros; by apply c_true_land_bit).
  pose proof (Hb 2 ltac:(lia)) as B2. pose proof (Hb 3 ltac:(lia)) as B3.
  pose proof (Hb 4 ltac:(lia)) as B4. pose proof (Hb 5 ltac:(lia)) as B5.
  pose proof (Hb 6 ltac:(lia)) as B6. pose proof (Hb 7 ltac:(lia)) as B7.
  change (2 ^ 2) with MM67INT_SEC in B2. change (2 ^ 3) with MM67INT_MIN in B3.
  change (2 ^ 4) with MM67INT_HOUR in B4. change (2 ^ 5) with MM67INT_DAY in B5.
  change (2 ^ 6) with MM67INT_WEEK in B6. change (2 ^ 7) with MM67INT_MON in B7.
  clear Hb. revert Hn.
  tick_crunch; split_all_ifs; intros Hn;
    repeat (destruct Hc as [->|Hc]); try subst n;
    try discriminate Hn; split; try lia; intros _; auto.
Qed.

Lemma tick_events_are_enabled_witness :
  (dev_ok dev_12_34_59 = true
   /\ Z.testbit (snd (mm67_tick_update dev_12_34_59)) 3 = true)
  /\ 3 <> 1
  /\ (3 <> 0 -> Z.testbit (reg_get (regs (nvr dev_12_34_59)) MM67_ICTRL) 3 = true).
Proof.
  split; [repeat split|].
  exact (tick_events_are_enabled dev_12_34_59 3 eq_refl eq_refl).
Defined.
Lemma bcd_roundtrip_100 x : 0 <= x <= 100 -> RTC_DCB (to_u8 (RTC_BCD x)) = x.
Proof.
  intros H. assert (is_u8 x = true) as Hu by (unfold is_u8; lia).
  byte_fact (fun x => implb (x <=? 100) (RTC_DCB (to_u8 (RTC_BCD x)) =? x)) x Hu.
  apply Z.eqb_eq. apply (implb_elim _ _ B). lia.
Qed.

(** Incrementing the encoding of [x] gives the encoding of [x + 1], and
    the rollover tests of the tick compare [x] with the bound. *)
Lemma bcd_inc_encode x :
  0 <= x <= 99 ->
  to_u8 (RTC_BCDINC (to_u8 (RTC_BCD x)) 1) = to_u8 (RTC_BCD (x + 1))
  /\ (RTC_BCD 60 <=? to_u8 (RTC_BCD (x + 1))) = (59 <=? x)
  /\ (RTC_BCD 24 <=? to_u8 (RTC_BCD (x + 1))) = (23 <=? x)
  /\ (RTC_BCD 7 <? to_u8 (RTC_BCD (x + 1))) = (7 <=? x)
  /\ (RTC_BCD 12 <? to_u8 (RTC_BCD (x + 1))) = (12 <=? x)
  /\ (RTC_BCD 100 <=? to_u8 (RTC_BCD (x + 1))) = (99 <=? x).
Proof.
  intros H. assert (is_u8 x = true) as Hu by (unfold is_u8; lia).
  byte_fact (fun x => implb (x <=? 99)
    ((to_u8 (RTC_BCDINC (to_u8 (RTC_BCD x)) 1) =? to_u8 (RTC_BCD (x + 1)))
     && eqb (RTC_BCD 60 <=? to_u8 (RTC_BCD (x + 1))) (59 <=? x)
     && eqb (RTC_BCD 24 <=? to_u8 (RTC_BCD (x + 1))) (23 <=? x)
     && eqb (RTC_BCD 7 <? to_u8 (RTC_BCD (x + 1))) (7 <=? x)
     && eqb (RTC_BCD 12 <? to_u8 (RTC_BCD (x + 1))) (12 <=? x)
     && eqb (RTC_BCD 100 <=? to_u8 (RTC_BCD (x + 1))) (99 <=? x))) x Hu.
  assert ((x <=? 99) = true) as Hp by lia.
  pose proof (implb_elim _ _ B Hp) as Hq. split_andb.
  repeat match goal with E : eqb _ _ = true |- _ => apply eqb_prop in E end.
  repeat split; try assumption. lia.
Qed.

Lemma tick_year_reg dev : year_reg (fst (mm67_tick dev)) = year_reg dev.
Proof. rewrite mm67_tick_eq. reflexivity. Qed.

Ltac tm_fields := cbn [tm_sec tm_min tm_hour tm_mday tm_mon tm_year tm_wday] in *.

Ltac split_ltb :=
  repeat match goal with
  | |- context [if ?a <? ?b then _ else _] => destruct (Z.ltb_spec a b)
  | H : context [if ?a <? ?b then _ else _] |- _ => destruct (Z.ltb_spec a b)
  end.

Lemma tm_year_next t : tm_year t <= tm_year (tm_next t) <= tm_year t + 1.
Proof. unfold tm_next. cbv zeta. split_ltb; tm_fields; lia. Qed.

Lemma tm_ok_next t : tm_ok t = true -> tm_ok (tm_next t) = true.
Proof.
  destruct t as [s m h md mo y wd]. unfold tm_ok, tm_next. tm_fields. cbv zeta.
  intros H. split_andb.
  pose proof (nvr_get_days_le (mo + 1) (y + 1900) ltac:(lia)).
  split_ltb; tm_fields; lia.
Qed.

Lemma tick_update_after_seed dev t :
  dev_ok dev = true ->
  tm_ok t = true ->
  tm_year (tm_next t) <= 179 ->
  fst (mm67_tick_update (mm67_time_set dev t))
  = regs (nvr (mm67_time_set dev (tm_next t))).
Proof.
  intros H Ht Hy. pose proof (tm_year_next t) as Hm.
  open_dev dev H. destruct t as [s m h md mo y wd].
  unfold tm_ok in Ht. cbn [tm_sec tm_min tm_hour tm_mday tm_mon tm_year tm_wday] in Ht, Hm.
  split_andb. clear H.
  destruct (bcd_inc_encode s ltac:(lia)) as (Is & Cs & _).
  destruct (bcd_inc_encode m ltac:(lia)) as (Im & Cm & _).
  destruct (bcd_inc_encode h ltac:(lia)) as (Ih & _ & Ch & _).
  destruct (bcd_inc_encode (wd + 1) ltac:(lia)) as (Iw & _ & _ & Cw & _).
  destruct (bcd_inc_encode md ltac:(lia)) as (Id & _).
  destruct (bcd_inc_encode (mo + 1) ltac:(lia)) as (Io & _ & _ & _ & Co & _).
  destruct (bcd_inc_encode (y - 80) ltac:(lia)) as (Iy & _ & _ & _ & _ & Cy).
  pose proof (bcd_roundtrip (mo + 1) ltac:(lia)) as Ro.
  pose proof (bcd_roundtrip (y - 80) ltac:(lia)) as Ry.
  pose proof (bcd_roundtrip_100 (md + 1) ltac:(lia)) as Rd.
  assert (y <= 179) as Hy0 by lia.
  clear Hm. remember (tm_next (mk_tm s m h md mo y wd)) as t' eqn:Et.
  match goal with |- _ = ?rhs => remember rhs as R eqn:ER end.
  time_set_open. rewrite Z.rem_small by lia.
  tick_open.
  repeat (rewrite ?Is, ?Im, ?Ih, ?Iw, ?Id, ?Io, ?Iy, ?Cs, ?Cm, ?Ch, ?Cw, ?Co, ?Cy,
            ?Ro, ?Ry, ?Rd;
          step_if).
  all: subst R t'; unfold tm_next in *; tm_fields.
  all: replace (y - 80 + 80 + 1900) with (y + 1900) in * by lia.
  all: split_ltb; try lia.
  all: tm_fields; time_set_open; rewrite ?Z.rem_small by lia.
  all: repeat f_equal; try lia.
Qed.

Lemma with_regs_time_set dev t r :
  with_regs (mm67_time_set dev t) r = with_regs dev r.
Proof. reflexivity. Qed.

(** The device with another interrupt status. *)
Lemma time_set_istat dev t v :
  dev_ok dev = true ->
  with_regs dev (reg_set (regs (nvr (mm67_time_set dev t))) MM67_ISTAT v)
  = mm67_time_set (with_regs dev (reg_set (regs (nvr dev)) MM67_ISTAT v)) t.
Proof. intros H. open_dev dev H. reflexivity. Qed.

(** One tick on a seeded clock gives the clock seeded with the successor,
    up to the interrupt status. *)
Lemma tick_after_seed dev t :
  dev_ok dev = true -> tm_ok t = true -> tm_year (tm_next t) <= 179 ->
  exists dev', dev_ok dev' = true
    /\ fst (mm67_tick (mm67_time_set dev t)) = mm67_time_set dev' (tm_next t).
Proof.
  intros H Ht Hy. rewrite mm67_tick_eq. cbn [fst].
  rewrite tick_update_after_seed by done. rewrite with_regs_time_set.
  destruct (c_true _).
  - eexists. split; [|apply time_set_istat; done].
    apply dev_ok_with_regs; [done| |].
    + rewrite length_reg_set. by apply dev_ok_length.
    + apply forallb_is_u8_reg_set. by apply dev_ok_bytes.
  - exists dev. split; [done|]. by destruct dev as [[? ? ?] ?].
Qed.

Lemma tm_year_iter_mono n t :
  tm_year t <= tm_year (Nat.iter n tm_next t).
Proof.
  induction n as [|n IH]; [cbn; lia|]. rewrite Nat.iter_succ.
  pose proof (tm_year_next (Nat.iter n tm_next t)). lia.
Qed.

Lemma tm_ok_iter n t : tm_ok t = true -> tm_ok (Nat.iter n tm_next t) = true.
Proof.
  intros H. induction n as [|n IH]; [done|]. rewrite Nat.iter_succ. by apply tm_ok_next.
Qed.

Lemma ticks_after_seed n dev t :
  dev_ok dev = true -> tm_ok t = true ->
  tm_year (Nat.iter n tm_next t) <= 179 ->
  exists dev', dev_ok dev' = true
    /\ fst (run (mm67_time_set dev t) (ticks n))
       = mm67_time_set dev' (Nat.iter n tm_next t).
Proof.
  revert dev t. induction n as [|n IH]; intros dev t H Ht Hy.
  - exists dev. by split.
  - unfold ticks. cbn [replicate]. fold (ticks n). rewrite run_tick_cons. cbn [fst].
    rewrite Nat.iter_succ_r in Hy |- *.
    pose proof (tm_year_iter_mono n (tm_next t)).
    destruct (tick_after_seed dev t H Ht ltac:(lia)) as (dev1 & H1 & ->).
    apply IH; [done|by apply tm_ok_next|done].
Qed.

(** X8: the tick engine is a calendar: after the clock is seeded from a
    well-formed host time, [n] ticks later [mm67_time_get] reads the host
    time advanced by [n] seconds, with every carry up to the year and the
    leap-year rule of [nvr_get_days], as long as the year stays within
    1980..2079. *)
Theorem ticks_are_calendar_successors n dev t t0 :
  dev_ok dev = true ->
  tm_ok t = true ->
  tm_year (Nat.iter n tm_next t) <= 179 ->
  mm67_time_get (fst (run (mm67_time_set dev t) (ticks n))) t0
  = Nat.iter n tm_next t.
Proof.
  intros H Ht Hy. destruct (ticks_after_seed n dev t H Ht Hy) as (dev' & H' & ->).
  apply time_get_of_time_set; [done|by apply tm_ok_iter|done].
Qed.

Lemma ticks_are_calendar_successors_witness :
  (dev_ok dev_quiet = true /\ tm_ok host_time = true
   /\ tm_year (Nat.iter 2 tm_next host_time) <= 179)
  /\ mm67_time_get (fst (run (mm67_time_set dev_quiet host_time) (ticks 2)))
       (mk_tm 0 0 0 0 0 0 0)
     = mk_tm 32 15 10 30 9 126 5.
Proof.
  assert (tm_year (Nat.iter 2 tm_next host_time) <= 179) as Hy
    by (vm_compute; discriminate).
  split; [repeat split; exact Hy|].
  exact (ticks_are_calendar_successors 2 dev_quiet host_time (mk_tm 0 0 0 0 0 0 0)
           eq_refl eq_refl Hy).
Defined.
Lemma port_reg_alias port k : port_reg (port + 32 * k) = port_reg port.
Proof.
  unfold port_reg. f_equal. change 0x1f with (Z.ones 5).
  rewrite !Z.land_ones by lia. change (2 ^ 5) with 32.
  replace (port + 32 * k - 768) with (port - 768 + k * 32) by lia.
  apply Z.mod_add. lia.
Qed.

(** X9: every port decodes to one of the 32 registers, so a read always
    returns a stored byte (the out-of-range answer 0xff is never produced
    by the decoder), and ports 32 apart are aliases for reads and for
    writes. *)
Theorem port_decoding dev port k val now :
  0 <= port_reg port < 32
  /\ mm67_read port dev = reg_get (regs (nvr dev)) (port_reg port)
  /\ mm67_read (port + 32 * k) dev = mm67_read port dev
  /\ mm67_write (port + 32 * k) val dev now = mm67_write port val dev now.
Proof.
  split; [apply port_reg_range|]. split; [apply mm67_read_reg|].
  split.
  - by rewrite !mm67_read_reg, port_reg_alias.
  - unfold mm67_write. by rewrite port_reg_alias.
Qed.

(** X10: a write to any register other than the three commands and the
    interrupt status is read back at the same port, and leaves what every
    other register reads unchanged. *)
Theorem write_then_read dev port port2 val now :
  dev_ok dev = true ->
  plain_reg (port_reg port) = true ->
  mm67_read port (mm67_write port val dev now) = to_u8 val
  /\ (port_reg port2 <> port_reg port ->
      mm67_read port2 (mm67_write port val dev now) = mm67_read port2 dev).
Proof.
  intros H Hp. pose proof (dev_ok_length dev H) as Hl.
  pose proof (port_reg_range port) as Hr. pose proof (port_reg_range port2) as Hr2.
  unfold plain_reg in Hp. apply negb_true_iff in Hp.
  repeat (apply orb_false_elim in Hp as [Hp ?]).
  destruct (mm67_write_cases port val dev now)
    as [[E _]|[[E _]|[[E _]|[[E _]|(_&_&_&_&_& ->)]]]];
    try (cbv zeta in E; rewrite E in *; discriminate).
  rewrite !mm67_read_reg. cbn [with_regs regs nvr]. split.
  - apply reg_get_set_eq. rewrite Hl. lia.
  - intros N. apply reg_get_set_ne. lia.
Qed.

Lemma write_then_read_witness :
  (dev_ok dev_quiet = true /\ plain_reg (port_reg 0x30a) = true)
  /\ mm67_read 0x30a (mm67_write 0x30a 0xc0 dev_quiet host_time) = 0xc0
  /\ mm67_read 0x303 (mm67_write 0x30a 0xc0 dev_quiet host_time) = 0x34.
Proof.
  split; [repeat split|].
  destruct (write_then_read dev_quiet 0x30a 0x303 0xc0 host_time eq_refl eq_refl)
    as [H1 H2].
  split; [exact H1|]. apply H2. discriminate.
Defined.

(** X11: the reset-RAM command forgets everything: the registers after it
    depend only on the host time, not on the registers before nor on the
    value written, and every register that is not a time field (alarm
    seconds to day-of-week and month, status, control, 18..31) is 0. *)
Theorem write_rstram_forgets dev1 dev2 port val1 val2 now i :
  dev_ok dev1 = true ->
  dev_ok dev2 = true ->
  port_reg port = MM67_RSTRAM ->
  regs (nvr (mm67_write port val1 dev1 now)) = regs (nvr (mm67_write port val2 dev2 now))
  /\ (0 <= i < 32 -> 2 <= i -> is_time_reg i = false ->
      reg_get (regs (nvr (mm67_write port val1 dev1 now))) i = 0).
Proof.
  intros H1 H2 Hp.
  assert (forall dev val, dev_ok dev = true ->
            mm67_write port val dev now = mm67_reset dev now) as Hw.
  { intros dev val H.
    destruct (mm67_write_cases port val dev now)
      as [[E _]|[[_ ->]|[[E _]|[[E _]|(_&_&N&_)]]]];
      try (cbv zeta in *; rewrite Hp in *; try discriminate; congruence); done. }
  rewrite !Hw, !mm67_reset_eq by done. split.
  - open_dev dev1 H1. open_dev dev2 H2. reflexivity.
  - intros Hi Hi2 Ht. open_dev dev1 H1. clear H1 H2 Hw.
    destruct now as [s m h md mo y wd].
    pose proof (reg_index_cases i Hi) as Hc.
    repeat (destruct Hc as [->|Hc]); try subst i; try discriminate Ht; try lia;
      reflexivity.
Qed.

Lemma write_rstram_forgets_witness :
  (dev_ok dev_quiet = true /\ dev_ok dev_counting = true
   /\ port_reg 0x313 = MM67_RSTRAM)
  /\ regs (nvr (mm67_write 0x313 0x00 dev_quiet host_time))
     = regs (nvr (mm67_write 0x313 0xff dev_counting host_time))
  /\ reg_get (regs (nvr (mm67_write 0x313 0x00 dev_quiet host_time))) MM67_ISTAT = 0.
Proof.
  split; [repeat split|].
  destruct (write_rstram_forgets dev_quiet dev_counting 0x313 0x00 0xff host_time
              MM67_ISTAT eq_refl eq_refl eq_refl) as [H1 H2].
  split; [exact H1|]. apply H2; [unfold MM67_ISTAT; lia|unfold MM67_ISTAT; lia|].
  reflexivity.
Defined.


Lemma month_ok_nonzero m : month_ok m = true -> (m =? 0) = false.
Proof.
  intros H. pose proof (month_ok_range m H).
  destruct (Z.eqb_spec m 0) as [->|]; [|done].
  change (RTC_DCB 0) with 0 in *. lia.
Qed.

Lemma quiet_tick_update dev :
  dev_ok dev = true ->
  time_ok dev = true ->
  reg_get (regs (nvr dev)) MM67_ICTRL = 0 ->
  reg_get (regs (nvr dev)) MM67_AL_MON = 0 ->
  snd (mm67_tick_update dev) = 0.
Proof.
  intros H Ht Hc Ha. open_dev dev H. clear H.
  unfold time_ok in Ht. regs_cbv_in Ht. regs_cbv_in Hc. regs_cbv_in Ha. subst.
  split_andb.
  pose proof (mon_step_valid r7 ltac:(done)) as P7. unfold next_bcd in P7.
  pose proof (month_ok_nonzero r7 ltac:(done)) as Z7.
  tick_crunch;
    repeat match goal with
    | P : context [if ?c then _ else _], E : ?c = _ |- _ => rewrite E in P
    end;
    try (apply month_ok_nonzero in P7; rewrite P7);
    rewrite ?Z7; cbn [orb]; change (dontcare 0) with false;
    rewrite ?andb_false_r; reflexivity.
Qed.

Lemma quiet_ticks dev n :
  dev_ok dev = true ->
  time_ok dev = true ->
  reg_get (regs (nvr dev)) MM67_ICTRL = 0 ->
  reg_get (regs (nvr dev)) MM67_AL_MON = 0 ->
  no_event dev (ticks n) = true
  /\ snd (run dev (ticks n)) = []
  /\ istat (fst (run dev (ticks n))) = istat dev.
Proof.
  revert dev. induction n as [|n IH]; intros dev H Ht Hc Ha; [done|].
  unfold ticks. cbn [replicate]. fold (ticks n). rewrite run_tick_cons.
  cbn [no_event fst snd].
  pose proof (quiet_tick_update dev H Ht Hc Ha) as Hf.
  destruct (IH (fst (mm67_tick dev))) as (I1 & I2 & I3).
  - by apply dev_ok_tick.
  - by apply time_ok_tick.
  - rewrite tick_frame_regs; [done|done|unfold MM67_ICTRL; lia|reflexivity].
  - rewrite tick_frame_regs; [done|done|unfold MM67_AL_MON; lia|reflexivity].
  - rewrite Hf, I1, I2, I3. repeat split.
    + rewrite mm67_tick_eq. cbn [snd]. by rewrite Hf.
    + rewrite tick_istat by done. rewrite Hf. apply Z.lor_0_r.
Qed.

(** X13: with valid time fields, an interrupt control mask of 0 and an
    alarm month register of 00, no tick ever records an event: the alarm
    month never equals a month 01..12, so over any number of ticks the
    status register keeps its value and [picint] is never called, also
    when an interrupt line is configured. *)
Theorem disabled_clock_stays_quiet dev n :
  dev_ok dev = true ->
  time_ok dev = true ->
  reg_get (regs (nvr dev)) MM67_ICTRL = 0 ->
  reg_get (regs (nvr dev)) MM67_AL_MON = 0 ->
  no_event dev (ticks n) = true
  /\ snd (run dev (ticks n)) = []
  /\ istat (fst (run dev (ticks n))) = istat dev.
Proof.
  exact (quiet_ticks dev n).
Qed.

Lemma disabled_clock_stays_quiet_witness :
  (dev_ok dev_quiet = true /\ time_ok dev_quiet = true
   /\ reg_get (regs (nvr dev_quiet)) MM67_ICTRL = 0
   /\ reg_get (regs (nvr dev_quiet)) MM67_AL_MON = 0)
  /\ no_event dev_quiet (ticks 3) = true
  /\ snd (run dev_quiet (ticks 3)) = []
  /\ istat (fst (run dev_quiet (ticks 3))) = 0xff.
Proof.
  split; [repeat split|].
  exact (disabled_clock_stays_quiet dev_quiet 3 eq_refl eq_refl eq_refl eq_refl).
Defined.



(** X18: machine initialization returns the result of the BIOS load.
    When the load fails, or in BIOS-only mode, it does nothing else: no
    device is added and the game port type is left as it was.  Otherwise
    the keyboard controller is added, the floppy controller is added
    exactly when it is configured as internal, and the game port type ends
    as [gameport_device].  The turbo variant does the same. *)
Theorem machine_init_outcome ret bios_only fdc_internal gp :
  let res := machine_xt_leading_edge_d_init ret bios_only fdc_internal gp in
  fst (fst res) = ret
  /\ (bios_only = true \/ ret = 0 -> res = (ret, [call_bios_load_linear], gp))
  /\ (bios_only = false -> ret <> 0 ->
      snd res = gameport_device
      /\ (In (call_device_add fdc_xt_device) (snd (fst res)) <-> fdc_internal = true)
      /\ In (call_device_add kbc_xt_device) (snd (fst res)))
  /\ machine_xt_leading_edge_d_turbo_init ret bios_only fdc_internal gp = res.
Proof.
  cbv zeta. unfold machine_xt_leading_edge_d_turbo_init, machine_xt_leading_edge_d_init.
  split; [by destruct (_ || _)|]. split; [|split; [|reflexivity]].
  - intros [-> | ->]; [reflexivity|]. by rewrite orb_true_r.
  - intros -> Hr. assert (c_true ret = true) as ->
      by (unfold c_true; apply negb_true_iff; lia).
    cbn [orb negb snd fst]. split; [reflexivity|]. split.
    + destruct fdc_internal; cbn; split; try done; intros; intuition discriminate.
    + destruct fdc_internal; cbn; auto.
Qed.

(** * Properties of the video adapter *)

Section LeCgaFacts.

Context {cga_core : Type}.
Variable cga_out : Z -> Z -> cga_t cga_core -> cga_t cga_core.
Variable cga_in : Z -> cga_t cga_core -> Z * cga_t cga_core.
Variable cga_poll : cga_t cga_core -> cga_t cga_core.

Lemma vram_index_range addr : 0 <= Z.land addr 0x7FFF < 0x8000.
Proof.
  change 0x7FFF with (Z.ones 15). rewrite Z.land_ones by lia.
  apply Z.mod_pos_bound. lia.
Qed.

Lemma vram_index_alias addr k :
  Z.land (addr + 0x8000 * k) 0x7FFF = Z.land addr 0x7FFF.
Proof.
  change 0x7FFF with (Z.ones 15). rewrite !Z.land_ones by lia.
  change (2 ^ 15) with 0x8000. rewrite Z.mul_comm. apply Z.mod_add. lia.
Qed.

(** X14: a byte written to video memory is read back at the same address
    and at every address 32 KB away from it, and a write leaves what the
    other cells read unchanged; the snow effect does not interfere. *)
Theorem vram_write_then_read (le : le_cga_t cga_core) rem1 rem2 cc addr addr2 val k :
  0 <= rem1 -> 0 <= rem2 -> 0 < cc ->
  length (vram (cga le)) = Z.to_nat 0x8000 ->
  fst (le_cga_read rem2 cc (addr + 0x8000 * k) (le_cga_write rem1 cc addr val le))
    = to_u8 val
  /\ (Z.land addr2 0x7FFF <> Z.land addr 0x7FFF ->
      fst (le_cga_read rem2 cc addr2 (le_cga_write rem1 cc addr val le))
      = fst (le_cga_read rem2 cc addr2 le)).
Proof.
  intros _ _ _ Hl. unfold le_cga_read, le_cga_write. cbn [fst cga vram].
  pose proof (vram_index_range addr). pose proof (vram_index_range addr2). split.
  - rewrite vram_index_alias. apply reg_get_set_eq. rewrite Hl. lia.
  - intros N. apply reg_get_set_ne. lia.
Qed.



(** X16: the extended mode register at port 0x3DF reads back the byte
    last written to it, without touching the CGA core, and nothing else
    changes it: not a write to or a read from another port, not a video
    memory write, not a poll. *)
Theorem ext_mode_register (le : le_cga_t cga_core) rem cc addr val val2 :
  0 <= rem -> 0 < cc ->
  le_cga_in cga_in LE_EXT_MODE_REGISTER
    (le_cga_out cga_out LE_EXT_MODE_REGISTER val le)
  = (to_u8 val, mk_le_cga (cga le) (to_u8 val))
  /\ (addr <> LE_EXT_MODE_REGISTER ->
      ext_mode (le_cga_out cga_out addr val2 le) = ext_mode le
      /\ ext_mode (snd (le_cga_in cga_in addr le)) = ext_mode le)
  /\ ext_mode (le_cga_write rem cc addr val2 le) = ext_mode le
  /\ ext_mode (le_cga_poll cga_poll le) = ext_mode le.
Proof.
  intros _ _. split; [reflexivity|]. split; [|split].
  - intros N. apply Z.eqb_neq in N. unfold le_cga_out, le_cga_in. rewrite N.
    split.
    + by destruct (_ || _).
    + destruct (_ || _); [|reflexivity]. by destruct (cga_in addr (cga le)).
  - reflexivity.
  - unfold le_cga_poll. by destruct (_ && _).
Qed.

(** X17: a write to a port other than 0x3d4, 0x3d5, 0x3d8, 0x3d9 and
    0x3DF does nothing, and a read from a port other than 0x3d4, 0x3d5,
    0x3da and 0x3DF returns 0xff and changes nothing.  So the mode and
    colour registers 0x3d8 and 0x3d9 cannot be read back, and writes to the
    status port 0x3da are dropped. *)
Theorem video_port_dispatch (le : le_cga_t cga_core) addr val :
  (addr <> 0x3d4 -> addr <> 0x3d5 -> addr <> 0x3d8 -> addr <> 0x3d9 ->
   addr <> LE_EXT_MODE_REGISTER -> le_cga_out cga_out addr val le = le)
  /\ (addr <> 0x3d4 -> addr <> 0x3d5 -> addr <> 0x3da ->
      addr <> LE_EXT_MODE_REGISTER -> le_cga_in cga_in addr le = (0xff, le))
  /\ le_cga_in cga_in 0x3d8 (le_cga_out cga_out 0x3d8 val le)
     = (0xff, le_cga_out cga_out 0x3d8 val le)
  /\ le_cga_out cga_out 0x3da val le = le.
Proof.
  unfold le_cga_out, le_cga_in, LE_EXT_MODE_REGISTER. repeat split.
  - intros.
    repeat match goal with
    | H : _ <> _ |- _ => apply Z.eqb_neq in H; rewrite H; clear H
    end; reflexivity.
  - intros.
    repeat match goal with
    | H : _ <> _ |- _ => apply Z.eqb_neq in H; rewrite H; clear H
    end; reflexivity.
Qed.

Lemma poll_ignores_ext_mode (le : le_cga_t cga_core) :
  le_cga_poll cga_poll le = mk_le_cga (cga_poll (cga le)) (ext_mode le).
Proof. unfold le_cga_poll. by destruct (_ && _). Qed.

End LeCgaFacts.

Lemma ext_mode_register_witness :
  (0 <= 5 /\ 0 < 3)
  /\ le_cga_in (fun a c => (0x00, c)) LE_EXT_MODE_REGISTER
       (le_cga_out (fun a v c => c) LE_EXT_MODE_REGISTER 0x81 sample_le_cga)
     = (0x81, mk_le_cga (cga sample_le_cga) 0x81).
Proof.
  split; [lia|].
  exact (proj1 (ext_mode_register (fun a v c => c) (fun a c => (0x00, c))
                  (fun c => c) sample_le_cga 5 3 0x3d4 0x81 0x00
                  ltac:(lia) ltac:(lia))).
Defined.

Lemma vram_write_then_read_witness :
  (0 <= 5 /\ 0 <= 7 /\ 0 < 3
   /\ length (vram (cga sample_le_cga)) = Z.to_nat 0x8000)
  /\ fst (le_cga_read 7 3 (0xb8123 + 0x8000 * 2)
            (le_cga_write 5 3 0xb8123 0x41 sample_le_cga)) = 0x41.
Proof.
  assert (length (vram (cga sample_le_cga)) = Z.to_nat 0x8000) as Hl
    by apply length_replicate.
  split; [repeat split; first [lia | exact Hl]|].
  exact (proj1 (vram_write_then_read sample_le_cga 5 7 3 0xb8123 0 0x41 2
                  ltac:(lia) ltac:(lia) ltac:(lia) Hl)).
Defined.

